(** * Einsatz-Monitor card: the render pipeline of [einsatz-monitor-card.js]

    A shallow embedding of the custom element [EinsatzMonitorCard]
    (its methods [_formatTime], [_getTypeInfo], [_render], the setter
    [hass], [setConfig] and [getCardSize]) together with the fragment of
    JavaScript's dynamic semantics these methods rely on: truthiness, the
    [||] operator, conversion to strings, property reads on arbitrary
    values, the prototype chain of plain objects, exceptions, and the
    [Date] constructor.

    Values that reach the card come from Home Assistant state objects,
    which are JSON documents; a missing property reads as [undefined]. *)

From Stdlib Require Import String Ascii List Bool ZArith Lia.
From Stdlib Require Import Floats DecimalString.
Import ListNotations.
Local Open Scope list_scope.
Local Open Scope string_scope.

(* ===================================================================== *)
(** ** JavaScript values *)
(* ===================================================================== *)

(** A JavaScript number is an IEEE 754 binary64, the kernel's [float]. A
    string is kept as its UTF-8 bytes: the card compares strings with
    literals, tests them for emptiness and concatenates them, and never
    looks at a character. An object is the list of its own properties; a
    read takes the first binding of a name. *)
#[warnings="-register-all"]
Inductive JsValue : Type :=
| VUndefined
| VNull
| VBool (b : bool)
| VNum (n : float)
| VStr (s : string)
| VArr (items : list JsValue)
| VObj (props : list (string * JsValue)).

Definition JsObject : Type := list (string * JsValue).

(** The only exception the card's code can raise. *)
Inductive JsError : Type :=
| TypeError.

(** The outcome of evaluating an expression or a call: a value, or an
    exception on its way up the stack. *)
Inductive completion (A : Type) : Type :=
| Normal (a : A)
| Throw (e : JsError).
Arguments Normal {A} a.
Arguments Throw {A} e.

Definition bind {A B : Type} (c : completion A) (k : A -> completion B)
  : completion B :=
  match c with
  | Normal a => k a
  | Throw e => Throw e
  end.

(** [try { body } catch (e) { handler }] *)
Definition try_catch {A : Type} (body : completion A)
  (handler : JsError -> completion A) : completion A :=
  match body with
  | Normal a => Normal a
  | Throw e => handler e
  end.

Declare Scope js_scope.
Delimit Scope js_scope with js.
Notation "x <- c ;; k" := (bind c (fun x => k))
  (at level 61, c at next level, right associativity) : js_scope.
Local Open Scope js_scope.

(** [Array.prototype.map] with a callback that may throw: the elements are
    visited in index order and the first exception ends the loop. *)
Fixpoint mapM {A B : Type} (f : A -> completion B) (l : list A)
  : completion (list B) :=
  match l with
  | [] => Normal []
  | x :: rest =>
      y <- f x ;;
      ys <- mapM f rest ;;
      Normal (y :: ys)
  end.

(* ===================================================================== *)
(** ** What the engine provides *)
(* ===================================================================== *)

(** Three algorithms belong to the JavaScript engine and its locale data,
    not to the card:
    - [Number_toString]: Number::toString in radix 10;
    - [Date_parse]: the time value, in milliseconds since the epoch, that
      [Date.parse] reads from a string, [None] standing for NaN;
    - [toLocaleString_de_DE]: the text [Intl] produces for a valid time
      value in the [de-DE] locale with the option bag the card passes
      (2-digit day, month, hour and minute, numeric year), in the
      browser's time zone. *)
Record Engine : Type := {
  Number_toString : float -> string;
  Date_parse : string -> option Z;
  toLocaleString_de_DE : Z -> string
}.

(* ===================================================================== *)
(** ** Truthiness and [||] *)
(* ===================================================================== *)

(** ToBoolean: [undefined], [null], [false], [+0], [-0], [NaN] and the
    empty string are falsy; every object and array is truthy. *)
Definition truthy (v : JsValue) : bool :=
  match v with
  | VUndefined | VNull => false
  | VBool b => b
  | VNum n => negb (PrimFloat.eqb n 0 || PrimFloat.is_nan n)
  | VStr s => negb (String.eqb s EmptyString)
  | VArr _ | VObj _ => true
  end.

(** [a || b] on values (both operands here are free of effects). *)
Definition or_else (a b : JsValue) : JsValue :=
  if truthy a then a else b.

(* ===================================================================== *)
(** ** Own properties and the prototype chain of a plain object *)
(* ===================================================================== *)

Fixpoint own_prop {A : Type} (props : list (string * A)) (k : string)
  : option A :=
  match props with
  | [] => None
  | (k', v) :: rest => if String.eqb k' k then Some v else own_prop rest k
  end.

(** The property names of [Object.prototype] (ECMAScript 2023 with
    Annex B). Each holds a built-in function, except [__proto__], an
    accessor that yields [Object.prototype] itself: every one of them
    reads as a truthy object. *)
Definition Object_prototype_names : list string :=
  [ "constructor"; "__defineGetter__"; "__defineSetter__"; "hasOwnProperty";
    "__lookupGetter__"; "__lookupSetter__"; "isPrototypeOf";
    "propertyIsEnumerable"; "toString"; "valueOf"; "__proto__";
    "toLocaleString" ].

Definition in_Object_prototype (k : string) : bool :=
  existsb (String.eqb k) Object_prototype_names.

(** The result of [obj[key]] on a plain object (an object literal or a
    parsed JSON object) for a key computed at run time: an own property,
    a member inherited from [Object.prototype], or nothing. *)
Inductive Looked (A : Type) : Type :=
| Own (a : A)
| Inherited (name : string)
| Missing.
Arguments Own {A} a.
Arguments Inherited {A} name.
Arguments Missing {A}.

Definition lookup {A : Type} (props : list (string * A)) (k : string)
  : Looked A :=
  match own_prop props k with
  | Some a => Own a
  | None => if in_Object_prototype k then Inherited k else Missing
  end.

(** The property names the card reads by a literal name from values it
    does not control. None of them is defined by a built-in prototype, so
    on a primitive, an array or a function they read as [undefined]. *)
Inductive Field : Type :=
| f_attributes | f_einsaetze
| f_type | f_keyword | f_vehicles | f_timestamp | f_unit.

Definition field_name (f : Field) : string :=
  match f with
  | f_attributes => "attributes"
  | f_einsaetze => "einsaetze"
  | f_type => "type"
  | f_keyword => "keyword"
  | f_vehicles => "vehicles"
  | f_timestamp => "timestamp"
  | f_unit => "unit"
  end.

Definition own_or_undefined (props : JsObject) (k : string) : JsValue :=
  match own_prop props k with
  | Some v => v
  | None => VUndefined
  end.

(** [v.f]: reading a property of [undefined] or [null] throws. *)
Definition Get (v : JsValue) (f : Field) : completion JsValue :=
  match v with
  | VUndefined | VNull => Throw TypeError
  | VObj props => Normal (own_or_undefined props (field_name f))
  | VBool _ | VNum _ | VStr _ | VArr _ => Normal VUndefined
  end.

(* ===================================================================== *)
(** ** Conversion to strings *)
(* ===================================================================== *)

Section WithEngine.

Variable E : Engine.

(** ToString, as a template literal applies it to each substitution and
    as a computed property key is made.
    - An array goes through [Array.prototype.join]: [undefined] and
      [null] elements give the empty string, the separator is a comma.
    - A parsed JSON object inherits [Object.prototype.toString], which
      answers [[object Object]], unless it has an own property named
      [toString]: a JSON value is never callable, the inherited [valueOf]
      returns the object itself, and OrdinaryToPrimitive throws. *)
Fixpoint ToString (v : JsValue) : completion string :=
  match v with
  | VUndefined => Normal "undefined"
  | VNull => Normal "null"
  | VBool b => Normal (if b then "true" else "false")
  | VNum n => Normal (Number_toString E n)
  | VStr s => Normal s
  | VArr items =>
      (fix join (l : list JsValue) : completion string :=
         match l with
         | [] => Normal EmptyString
         | x :: rest =>
             sx <- match x with
                   | VUndefined | VNull => Normal EmptyString
                   | _ => ToString x
                   end ;;
             match rest with
             | [] => Normal sx
             | _ :: _ => sr <- join rest ;; Normal (sx ++ "," ++ sr)
             end
         end) items
  | VObj props =>
      match own_prop props "toString" with
      | Some _ => Throw TypeError
      | None => Normal "[object Object]"
      end
  end.

Definition stringable (v : JsValue) : bool :=
  match ToString v with
  | Normal _ => true
  | Throw _ => false
  end.

(* ===================================================================== *)
(** ** The [Date] constructor *)
(* ===================================================================== *)

(** The integer part of a finite number, towards zero. *)
Definition truncate (n : float) : Z :=
  match Prim2SF n with
  | S754_finite sign m e =>
      let z := if (0 <=? e)%Z then (Z.pos m * 2 ^ e)%Z
               else (Z.pos m / 2 ^ (- e))%Z in
      if sign then (- z)%Z else z
  | S754_zero _ | S754_infinity _ | S754_nan => 0%Z
  end.

(** TimeClip: a time value lies within 8.64e15 ms of the epoch. *)
Definition TimeClip (t : float) : option Z :=
  if PrimFloat.is_nan t || PrimFloat.is_infinity t then None
  else if (8640000000000000 <? Z.abs (truncate t))%Z then None
  else Some (truncate t).

(** [new Date(value)]: the time value of the new object, [None] for an
    Invalid Date. The argument is first made primitive; on a parsed JSON
    object or array both [valueOf] (which returns the object) and
    [toString] are tried, so the primitive is the value's string and the
    conversion throws exactly when [ToString] does. A string is parsed,
    anything else is converted to a number and clipped. *)
Definition new_Date (value : JsValue) : completion (option Z) :=
  match value with
  | VStr s => Normal (Date_parse E s)
  | VArr _ | VObj _ => s <- ToString value ;; Normal (Date_parse E s)
  | VNum n => Normal (TimeClip n)
  | VBool b => Normal (Some (if b then 1 else 0)%Z)
  | VNull => Normal (Some 0%Z)
  | VUndefined => Normal None
  end.

(** [date.toLocaleString('de-DE', { day: '2-digit', ... })]: ECMA-402
    answers the fixed text [Invalid Date] for a NaN time value and throws
    nothing. *)
Definition toLocaleString (date : option Z) : string :=
  match date with
  | None => "Invalid Date"
  | Some tv => toLocaleString_de_DE E tv
  end.

(* ===================================================================== *)
(** ** The card's helper methods *)
(* ===================================================================== *)

(** [_formatTime(timestamp)] *)
Definition _formatTime (timestamp : JsValue) : completion string :=
  if negb (truthy timestamp) then Normal EmptyString
  else
    try_catch
      (date <- new_Date timestamp ;;
       Normal (toLocaleString date))
      (fun _ => ToString timestamp).

End WithEngine.

(** The theme of an incident type: the entries of [types] and the literal
    after [||] in [_getTypeInfo]. *)
Record VisualTheme : Type := {
  icon : string;
  color : string;
  bgColor : string
}.

Definition types : list (string * VisualTheme) :=
  [ ("fire",
     {| icon := "mdi:fire";
        color := "#ef4444";
        bgColor := "rgba(239, 68, 68, 0.15)" |});
    ("technical",
     {| icon := "mdi:car-emergency";
        color := "#3b82f6";
        bgColor := "rgba(59, 130, 246, 0.15)" |});
    ("hazmat",
     {| icon := "mdi:hazard-lights";
        color := "#f59e0b";
        bgColor := "rgba(245, 158, 11, 0.15)" |}) ].

Definition fallback_theme : VisualTheme :=
  {| icon := "mdi:alert-circle";
     color := "#6b7280";
     bgColor := "rgba(107, 114, 128, 0.15)" |}.

(** What [_getTypeInfo] returns: one of the theme objects, or, when the key
    names a member of [Object.prototype], that built-in object. *)
Inductive TypeInfo : Type :=
| Theme (t : VisualTheme)
| PrototypeMember (name : string).

(** [typeInfo.icon], [typeInfo.color], [typeInfo.bgColor] as a template
    literal prints them: a built-in function has no such property, and
    [undefined] prints as the word. *)
Definition typeInfo_prop (sel : VisualTheme -> string) (typeInfo : TypeInfo)
  : string :=
  match typeInfo with
  | Theme t => sel t
  | PrototypeMember _ => "undefined"
  end.

(** The values that fill the holes of one row's template literal. *)
Record RenderedRow : Type := {
  row_typeInfo : TypeInfo;
  row_keyword : string;
  row_unit : option string;
  row_vehicles : string;
  row_timeStr : string
}.

(** The three things [_render] writes to [innerHTML], by the values that
    fill the holes of the template literals. *)
Inductive RenderedView : Type :=
| ErrorView (title missingEntityId : string)
| EmptyView (title : string)
| ListView (title : string) (rows : list RenderedRow).

(* ===================================================================== *)
(** ** The template literals *)
(* ===================================================================== *)

(** The literal text of the templates is copied from the source with an
    apostrophe standing for each double quote (the templates contain no
    apostrophe of their own); [html] puts the double quotes back. *)
Fixpoint html (s : string) : string :=
  match s with
  | EmptyString => EmptyString
  | String c rest =>
      String (if Ascii.eqb c "'"%char then ascii_of_nat 34 else c) (html rest)
  end.

Definition error_markup (title entityId : string) : string :=
  html "
        <ha-card header='"
  ++ title
  ++ html "'>
          <div style='padding: 16px; color: #ef4444;'>
            <ha-icon icon='mdi:alert' style='margin-right: 8px;'></ha-icon>
            Entity nicht gefunden: "
  ++ entityId
  ++ html "
          </div>
        </ha-card>
      ".

Definition empty_content : string :=
  html "
        <div style='padding: 20px; text-align: center; color: #6b7280;'>
          <ha-icon icon='mdi:check-circle' style='--mdc-icon-size: 48px; color: #10b981;'></ha-icon>
          <p style='margin-top: 10px;'>Keine Einsätze vorhanden</p>
        </div>
      ".

Definition unit_line (unit : string) : string :=
  html "
                <div style='font-size: 0.85em; color: var(--secondary-text-color); margin-bottom: 4px;'>
                  <ha-icon icon='mdi:office-building' style='--mdc-icon-size: 14px;'></ha-icon>
                  "
  ++ unit
  ++ html "
                </div>
              ".

Definition row_markup (bgColor color icon keyword unitLine vehicles timeStr : string)
  : string :=
  html "
          <div style='
            background: "
  ++ bgColor
  ++ html ";
            border-left: 4px solid "
  ++ color
  ++ html ";
            border-radius: 8px;
            padding: 12px;
            margin-bottom: 8px;
            display: flex;
            align-items: flex-start;
            gap: 12px;
          '>
            <div style='
              background: "
  ++ color
  ++ html ";
              border-radius: 50%;
              width: 40px;
              height: 40px;
              display: flex;
              align-items: center;
              justify-content: center;
              flex-shrink: 0;
            '>
              <ha-icon icon='"
  ++ icon
  ++ html "' style='--mdc-icon-size: 24px; color: white;'></ha-icon>
            </div>
            <div style='flex: 1; min-width: 0;'>
              <div style='font-weight: 600; font-size: 1.1em; color: "
  ++ color
  ++ html "; margin-bottom: 4px;'>
                "
  ++ keyword
  ++ html "
              </div>
              "
  ++ unitLine
  ++ html "
              <div style='font-size: 0.9em; color: var(--primary-text-color); margin-bottom: 4px;'>
                <ha-icon icon='mdi:truck' style='--mdc-icon-size: 14px;'></ha-icon>
                "
  ++ vehicles
  ++ html "
              </div>
              <div style='font-size: 0.8em; color: var(--secondary-text-color);'>
                <ha-icon icon='mdi:clock-outline' style='--mdc-icon-size: 14px;'></ha-icon>
                "
  ++ timeStr
  ++ html "
              </div>
            </div>
          </div>
        ".

Definition card_markup (title cardContent : string) : string :=
  html "
      <ha-card header='"
  ++ title
  ++ html "'>
        <div style='padding: 16px;'>
          "
  ++ cardContent
  ++ html "
        </div>
      </ha-card>
    ".

Definition row_html (r : RenderedRow) : string :=
  row_markup
    (typeInfo_prop bgColor (row_typeInfo r))
    (typeInfo_prop color (row_typeInfo r))
    (typeInfo_prop icon (row_typeInfo r))
    (row_keyword r)
    (match row_unit r with
     | Some unit => unit_line unit
     | None => EmptyString
     end)
    (row_vehicles r)
    (row_timeStr r).

(** [rows.join('')] *)
Definition join_rows (rows : list RenderedRow) : string :=
  String.concat EmptyString (map row_html rows).

Definition innerHTML_of (view : RenderedView) : string :=
  match view with
  | ErrorView title entityId => error_markup title entityId
  | EmptyView title => card_markup title empty_content
  | ListView title rows => card_markup title (join_rows rows)
  end.

(* ===================================================================== *)
(** ** The component *)
(* ===================================================================== *)

(** The [hass] object Home Assistant hands to a card: [states] maps entity
    identifiers to state objects. It is a plain object, so a computed key
    also reaches [Object.prototype]. *)
Record Hass : Type := {
  states : list (string * JsValue)
}.

(** The fields of the custom element that the class reads or writes:
    [_config] (a plain object), [_hass] ([null] until the first update) and
    the [innerHTML] of the element. *)
Record Card : Type := {
  _config : JsObject;
  _hass : option Hass;
  innerHTML : string
}.

(** [constructor()] *)
Definition new_card : Card :=
  {| _config := []; _hass := None; innerHTML := EmptyString |}.

(** [obj[k] = v] on a plain object. *)
Definition set_prop (props : JsObject) (k : string) (v : JsValue) : JsObject :=
  (k, v) :: props.

(** [setConfig(config)], for a configuration that is an extensible
    object or missing. *)
Definition setConfig (config : option JsObject) (c : Card) : Card :=
  let cfg0 := match config with Some o => o | None => [] end in
  let cfg1 :=
    if negb (truthy (own_or_undefined cfg0 "entity"))
    then set_prop cfg0 "entity" (VStr "sensor.letzte_einsatze") else cfg0 in
  let cfg2 :=
    if negb (truthy (own_or_undefined cfg1 "title"))
    then set_prop cfg1 "title" (VStr "Letzte Einsätze") else cfg1 in
  {| _config := cfg2; _hass := _hass c; innerHTML := innerHTML c |}.

(** [getCardSize()] *)
Definition getCardSize (c : Card) : Z := 4%Z.

(** [this._config.entity || 'sensor.letzte_einsatze'] *)
Definition entityId (c : Card) : JsValue :=
  or_else (own_or_undefined (_config c) "entity")
          (VStr "sensor.letzte_einsatze").

(** [this._config.title || 'Letzte Einsätze'] *)
Definition title (c : Card) : JsValue :=
  or_else (own_or_undefined (_config c) "title") (VStr "Letzte Einsätze").

(** Truthiness of the result of a computed read: an inherited built-in is
    an object. *)
Definition found (stateObj : Looked JsValue) : bool :=
  match stateObj with
  | Own v => truthy v
  | Inherited _ => true
  | Missing => false
  end.

(** [stateObj.attributes]: the built-in members of [Object.prototype] have
    no property of that name. *)
Definition Get_attributes (stateObj : Looked JsValue) : completion JsValue :=
  match stateObj with
  | Own v => Get v f_attributes
  | Inherited _ => Normal VUndefined
  | Missing => Throw TypeError
  end.

(** [einsaetze.length === 0]. A string has its length, an array its item
    count, an object what its own [length] property holds; numbers and
    booleans have none. *)
Definition length_is_zero (einsaetze : JsValue) : completion bool :=
  match einsaetze with
  | VUndefined | VNull => Throw TypeError
  | VArr items => Normal (Nat.eqb (List.length items) 0)
  | VStr s => Normal (Nat.eqb (String.length s) 0)
  | VObj props =>
      Normal (match own_prop props "length" with
              | Some (VNum n) => PrimFloat.eqb n 0
              | _ => false
              end)
  | VBool _ | VNum _ => Normal false
  end.

Section Rendering.

Variable E : Engine.

(** [_getTypeInfo(type)]: the key of [types[type]] is the string of
    [type]. *)
Definition _getTypeInfo (type : JsValue) : completion TypeInfo :=
  key <- ToString E type ;;
  Normal (match lookup types key with
          | Own theme => Theme theme
          | Inherited name => PrototypeMember name
          | Missing => Theme fallback_theme
          end).

(** The callback of [einsaetze.map]: the five constants it computes and
    the conversions of the template literal, in source order. *)
Definition render_row (einsatz : JsValue) : completion RenderedRow :=
  type <- Get einsatz f_type ;;
  typeInfo <- _getTypeInfo type ;;
  kw <- Get einsatz f_keyword ;;
  let keyword := or_else kw (VStr "Unbekannt") in
  vh <- Get einsatz f_vehicles ;;
  let vehicles := or_else vh (VStr "Keine Fahrzeuge") in
  ts <- Get einsatz f_timestamp ;;
  timeStr <- _formatTime E ts ;;
  un <- Get einsatz f_unit ;;
  let unit := or_else un (VStr EmptyString) in
  keyword_text <- ToString E keyword ;;
  unit_text <- (if truthy unit
                then s <- ToString E unit ;; Normal (Some s)
                else Normal None) ;;
  vehicles_text <- ToString E vehicles ;;
  Normal {| row_typeInfo := typeInfo;
            row_keyword := keyword_text;
            row_unit := unit_text;
            row_vehicles := vehicles_text;
            row_timeStr := timeStr |}.

(** [einsaetze.map(callback)]: only an array has a callable [map]; the own
    [map] of a JSON object is data, and calling it throws. *)
Definition map_rows (einsaetze : JsValue) : completion (list RenderedRow) :=
  match einsaetze with
  | VArr items => mapM render_row items
  | _ => Throw TypeError
  end.

(** The body of [_render()] up to the assignment to [innerHTML]: [None]
    when the method returns at once for want of a [hass]. *)
Definition render_view (c : Card) : completion (option RenderedView) :=
  match _hass c with
  | None => Normal None
  | Some hass =>
      key <- ToString E (entityId c) ;;
      let stateObj := lookup (states hass) key in
      if negb (found stateObj) then
        title_text <- ToString E (title c) ;;
        entity_text <- ToString E (entityId c) ;;
        Normal (Some (ErrorView title_text entity_text))
      else
        attributes <- Get_attributes stateObj ;;
        ei <- Get attributes f_einsaetze ;;
        let einsaetze := or_else ei (VArr []) in
        empty <- length_is_zero einsaetze ;;
        if empty then
          title_text <- ToString E (title c) ;;
          Normal (Some (EmptyView title_text))
        else
          rows <- map_rows einsaetze ;;
          title_text <- ToString E (title c) ;;
          Normal (Some (ListView title_text rows))
  end.

(** [_render()]: the card after the call. When an exception escapes,
    nothing has been assigned and the card is as it was. *)
Definition _render (c : Card) : completion Card :=
  view <- render_view c ;;
  Normal (match view with
          | None => c
          | Some v => {| _config := _config c;
                         _hass := _hass c;
                         innerHTML := innerHTML_of v |}
          end).

(** [set hass(hass)] *)
Definition set_hass (hass : option Hass) (c : Card) : completion Card :=
  _render {| _config := _config c; _hass := hass; innerHTML := innerHTML c |}.

End Rendering.

(* ===================================================================== *)
(** ** The card a call leaves behind when it throws *)
(* ===================================================================== *)

(** [set hass(hass)] with the state of the card after the call in every
    case. The setter stores the [hass] before it renders, so when
    [_render] throws the card holds the new [hass] and the markup it had
    before, and the exception leaves the setter. *)
Definition set_hass_state (E : Engine) (hass : option Hass) (c : Card)
  : Card * option JsError :=
  let stored := {| _config := _config c;
                   _hass := hass;
                   innerHTML := innerHTML c |} in
  match _render E stored with
  | Normal c' => (c', None)
  | Throw e => (stored, Some e)
  end.

(** How far an object can still be changed. An object literal or a parsed
    object is [Extensible]; after [Object.preventExtensions] or
    [Object.seal] no property can be added to it ([NonExtensible]); after
    [Object.freeze] none can be written either ([Frozen]). *)
Inductive Integrity : Type :=
| Extensible
| NonExtensible
| Frozen.

(** [obj[k] = v] on a plain object in strict code, which the body of a
    class is: an assignment the object refuses throws. *)
Definition assign (i : Integrity) (props : JsObject) (k : string)
  (v : JsValue) : completion JsObject :=
  match i, own_prop props k with
  | Extensible, _ => Normal (set_prop props k v)
  | NonExtensible, Some _ => Normal (set_prop props k v)
  | NonExtensible, None => Throw TypeError
  | Frozen, _ => Throw TypeError
  end.

(** [setConfig(config)] for a configuration object of any integrity, or
    none (the fresh object taken instead is extensible), with the state
    of the card after the call in every case: the configuration is stored
    first, each default is assigned to the stored object itself, and an
    assignment that throws leaves it stored as far as it got. *)
Definition setConfig_strict (config : option JsObject) (i : Integrity)
  (c : Card) : Card * option JsError :=
  let cfg0 := match config with Some o => o | None => [] end in
  let i0 := match config with Some _ => i | None => Extensible end in
  let store := fun cfg : JsObject =>
    {| _config := cfg; _hass := _hass c; innerHTML := innerHTML c |} in
  match (if negb (truthy (own_or_undefined cfg0 "entity"))
         then assign i0 cfg0 "entity" (VStr "sensor.letzte_einsatze")
         else Normal cfg0) with
  | Throw e => (store cfg0, Some e)
  | Normal cfg1 =>
      match (if negb (truthy (own_or_undefined cfg1 "title"))
             then assign i0 cfg1 "title" (VStr "Letzte Einsätze")
             else Normal cfg1) with
      | Throw e => (store cfg1, Some e)
      | Normal cfg2 => (store cfg2, None)
      end
  end.

(* ===================================================================== *)
(** ** Well-formed input *)
(* ===================================================================== *)

Definition nullish (v : JsValue) : bool :=
  match v with
  | VUndefined | VNull => true
  | _ => false
  end.

(** [v.f] where [v] is known not to be [undefined] or [null]. *)
Definition field (v : JsValue) (f : Field) : JsValue :=
  match Get v f with
  | Normal x => x
  | Throw _ => VUndefined
  end.

Definition row_fields : list Field :=
  [f_type; f_keyword; f_vehicles; f_timestamp; f_unit].

(** A field as the data model of the card describes it: absent, or a
    string. *)
Definition optional_string (v : JsValue) : bool :=
  match v with
  | VUndefined | VStr _ => true
  | _ => false
  end.

(** An incident object all of whose fields are absent or strings. *)
Definition incident_record (einsatz : JsValue) : bool :=
  match einsatz with
  | VObj _ => forallb (fun f => optional_string (field einsatz f)) row_fields
  | _ => false
  end.

Section WellFormed.

Variable E : Engine.

(** The unit line of a row as a function of [einsatz.unit]: the text of a
    truthy value, nothing for a falsy one. *)
Definition unit_text_of (un : JsValue) : completion (option string) :=
  if truthy un then s <- ToString E un ;; Normal (Some s) else Normal None.

(** An incident the callback of [map] can turn into a row: it is not
    [undefined] or [null], and each of its five fields has a string
    form. *)
Definition incident_ok (einsatz : JsValue) : bool :=
  negb (nullish einsatz)
  && forallb (fun f => stringable E (field einsatz f)) row_fields.

(** The value of [stateObj.attributes.einsaetze] is usable when it is
    falsy (the card then takes the empty array) or an array of incidents
    that can be turned into rows. *)
Definition incidents_ok (ei : JsValue) : bool :=
  negb (truthy ei)
  || match ei with
     | VArr items => forallb incident_ok items
     | _ => false
     end.

(** A state of the card that [_render] can display: a [hass] is present,
    the title and the entity identifier have string forms, and the entity
    is either not found, or found with an [attributes] value that is not
    [undefined] or [null] and holds usable incidents. *)
Definition snapshot_ok (c : Card) : bool :=
  match _hass c with
  | None => false
  | Some hass =>
      stringable E (title c)
      && match ToString E (entityId c) with
         | Throw _ => false
         | Normal key =>
             match lookup (states hass) key with
             | Missing => true
             | Inherited _ => false
             | Own stateObj =>
                 negb (truthy stateObj)
                 || (negb (nullish (field stateObj f_attributes))
                     && incidents_ok
                          (field (field stateObj f_attributes) f_einsaetze))
             end
         end
  end.

End WellFormed.

(* ===================================================================== *)
(** ** Sample data *)
(* ===================================================================== *)

(** A stand-in engine to run the model on examples. It prints the integer
    part of a number, reads no string as a date and formats every valid
    date as the same text; the theorems below hold for every engine. *)
Definition stub_engine : Engine :=
  {| Number_toString := fun n =>
       if PrimFloat.is_nan n then "NaN"
       else if PrimFloat.is_infinity n
            then (if PrimFloat.ltb n 0 then "-Infinity" else "Infinity")
            else NilZero.string_of_int (Z.to_int (truncate n));
     Date_parse := fun _ => None;
     toLocaleString_de_DE := fun _ => "14.11.2023, 23:13" |}.

Definition sample_config : JsObject :=
  [ ("type", VStr "custom:einsatz-monitor-card");
    ("entity", VStr "sensor.x");
    ("title", VStr "Wache") ].

(** The state object of an entity, with the given [einsaetze] attribute. *)
Definition state_with (einsaetze : JsValue) : JsValue :=
  VObj [ ("entity_id", VStr "sensor.x");
         ("state", VStr "1");
         ("attributes", VObj [ ("einsaetze", einsaetze) ]) ].

Definition hass_with (stateObj : JsValue) : Hass :=
  {| states := [ ("sensor.x", stateObj) ] |}.

Definition card_with (hass : Hass) : Card :=
  {| _config := sample_config; _hass := Some hass; innerHTML := EmptyString |}.

Definition fire_incident : JsValue :=
  VObj [ ("type", VStr "fire");
         ("keyword", VStr "B2");
         ("vehicles", VStr "HLF20, TLF");
         ("unit", VStr "Wache1");
         ("timestamp", VNum 1700000000000) ].

(** An incident with nothing but empty strings. *)
Definition blank_incident : JsValue :=
  VObj [ ("keyword", VStr EmptyString);
         ("vehicles", VStr EmptyString);
         ("unit", VStr EmptyString);
         ("timestamp", VStr EmptyString) ].

(* ===================================================================== *)
(** ** The statements after the class *)
(* ===================================================================== *)

(** What the top level of the module touches: the names the custom
    element registry holds, [window.customCards] ([None] while it is
    undefined, otherwise the array of picker entries) and the console,
    each line the list of its arguments. *)
Record Window : Type := {
  customElements : list string;
  customCards : option (list JsValue);
  console : list (list string)
}.

(** [customElements.define] throws a [DOMException] of this name when the
    registry already holds the name. *)
Inductive DOMException : Type :=
| NotSupportedError.

(** [customElements.define(name, constructor)] for a valid name and a
    class that no other name is registered for. *)
Definition define (name : string) (w : Window) : DOMException + Window :=
  if existsb (String.eqb name) (customElements w)
  then inl NotSupportedError
  else inr {| customElements := name :: customElements w;
              customCards := customCards w;
              console := console w |}.

(** The object pushed to [window.customCards]. *)
Definition card_entry : JsValue :=
  VObj [ ("type", VStr "einsatz-monitor-card");
         ("name", VStr "Einsatz-Monitor Card");
         ("description",
          VStr "Zeigt die letzten Einsätze mit farblicher Kennzeichnung") ].

(** Evaluating the module: [customElements.define], then
    [window.customCards = window.customCards || []], [push] and
    [console.info]. An exception of [define] ends the evaluation before
    anything else has happened. *)
Definition load_module (w : Window) : DOMException + Window :=
  match define "einsatz-monitor-card" w with
  | inl e => inl e
  | inr w1 =>
      let cards := match customCards w1 with
                   | Some entries => entries
                   | None => []
                   end in
      inr {| customElements := customElements w1;
             customCards := Some (cards ++ [card_entry])%list;
             console :=
               (console w1 ++
                [ [ "%c EINSATZ-MONITOR-CARD %c v1.3.0 ";
                    "background: #ef4444; color: white; font-weight: bold;";
                    "background: #333; color: white;" ] ])%list |}
  end.

(* ===================================================================== *)
(** ** Text inside markup *)
(* ===================================================================== *)

(** [part] occurs in [s], character for character. *)
Definition contains (s part : string) : Prop :=
  exists before after, s = before ++ part ++ after.

(** An incident whose texts carry markup, and a unit that is a number. *)
Definition markup_incident : JsValue :=
  VObj [ ("keyword", VStr "<b>B3</b>");
         ("vehicles", VStr "HLF20 & DLK");
         ("unit", VNum 7) ].

(** A state object that has lost its attributes. *)
Definition bare_state : JsValue :=
  VObj [ ("entity_id", VStr "sensor.x"); ("state", VStr "unavailable") ].

(** A card configured for an entity named like a method of every
    object. *)
Definition toString_card : Card :=
  {| _config := [ ("entity", VStr "toString") ];
     _hass := Some {| states := [ ("sensor.x", state_with (VArr [])) ] |};
     innerHTML := EmptyString |}.

(** The row of [fire_incident] on the stand-in engine. *)
Definition fire_row : RenderedRow :=
  {| row_typeInfo := Theme {| icon := "mdi:fire";
                              color := "#ef4444";
                              bgColor := "rgba(239, 68, 68, 0.15)" |};
     row_keyword := "B2";
     row_unit := Some "Wache1";
     row_vehicles := "HLF20, TLF";
     row_timeStr := "14.11.2023, 23:13" |}.


(* ===================================================================== *)
(** * Properties *)
(* ===================================================================== *)

(** ** Completions *)

Lemma bind_Normal {A B : Type} (c : completion A) (k : A -> completion B)
  (b : B) :
  bind c k = Normal b <-> exists a, c = Normal a /\ k a = Normal b.
Proof.
  destruct c as [a | e]; simpl; split.
  - intros H. exists a. split; [reflexivity | exact H].
  - intros [a' [Ha Hk]]. injection Ha as ->. exact Hk.
  - discriminate.
  - intros [a' [Ha _]]. discriminate Ha.
Qed.

Lemma mapM_rows {A B : Type} (f : A -> completion B) (l : list A)
  (ys : list B) :
  mapM f l = Normal ys <-> Forall2 (fun x y => f x = Normal y) l ys.
Proof.
  revert ys. induction l as [| x rest IH]; intros ys; simpl.
  - split.
    + intros H. injection H as <-. constructor.
    + intros H. inversion H. reflexivity.
  - split.
    + intros H. apply bind_Normal in H. destruct H as [y [Hy H]].
      apply bind_Normal in H. destruct H as [ys' [Hys H]].
      injection H as <-. constructor; [exact Hy | apply IH; exact Hys].
    + intros H. inversion H as [| x' y rest' ys' Hy Hrest]; subst.
      rewrite Hy. simpl. apply IH in Hrest. rewrite Hrest. reflexivity.
Qed.

Lemma mapM_total {A B : Type} (f : A -> completion B) (l : list A) :
  Forall (fun x => exists y, f x = Normal y) l ->
  exists ys, mapM f l = Normal ys.
Proof.
  induction 1 as [| x rest [y Hy] _ [ys Hys]]; simpl.
  - exists []. reflexivity.
  - exists (y :: ys). rewrite Hy, Hys. reflexivity.
Qed.

Lemma mapM_length {A B : Type} (f : A -> completion B) (l : list A)
  (ys : list B) :
  mapM f l = Normal ys -> List.length ys = List.length l.
Proof.
  intros H. apply mapM_rows in H. symmetry. exact (Forall2_length H).
Qed.

(** ** Configuration *)

(** After [setConfig] the entity identifier and the title that [_render]
    uses are the configured ones, or the defaults where the configuration
    has none. *)
Lemma setConfig_entityId (config : option JsObject) (c : Card) :
  entityId (setConfig config c) =
  or_else (own_or_undefined (match config with Some o => o | None => [] end)
                            "entity")
          (VStr "sensor.letzte_einsatze").
Proof.
  unfold entityId, setConfig, set_prop, or_else, own_or_undefined.
  simpl _config.
  generalize (match config with Some o => o | None => [] end).
  intros o.
  destruct (own_prop o "entity") as [e |] eqn:He;
    [destruct (truthy e) eqn:Hte |]; simpl;
    destruct (own_prop o "title") as [t |] eqn:Ht;
    try destruct (truthy t) eqn:Htt; simpl;
    rewrite ?He, ?Hte; reflexivity.
Qed.

Lemma setConfig_title (config : option JsObject) (c : Card) :
  title (setConfig config c) =
  or_else (own_or_undefined (match config with Some o => o | None => [] end)
                            "title")
          (VStr "Letzte Einsätze").
Proof.
  unfold title, setConfig, set_prop, or_else, own_or_undefined.
  simpl _config.
  generalize (match config with Some o => o | None => [] end).
  intros o.
  destruct (own_prop o "entity") as [e |] eqn:He;
    [destruct (truthy e) eqn:Hte |]; simpl;
    destruct (own_prop o "title") as [t |] eqn:Ht;
    try destruct (truthy t) eqn:Htt; simpl;
    rewrite ?Ht, ?Htt; reflexivity.
Qed.

Section Properties.

Variable E : Engine.

(** ** Strings *)

Lemma stringable_Normal (v : JsValue) :
  stringable E v = true <-> exists s, ToString E v = Normal s.
Proof.
  unfold stringable. destruct (ToString E v) as [s | e]; split.
  - intros _. exists s. reflexivity.
  - reflexivity.
  - discriminate.
  - intros [s Hs]. discriminate Hs.
Qed.

Lemma ToString_throws (v : JsValue) :
  stringable E v = false <-> ToString E v = Throw TypeError.
Proof.
  unfold stringable. destruct (ToString E v) as [s | []]; split;
    try discriminate; reflexivity.
Qed.

(** Every falsy value is a primitive and has a string form. *)
Lemma falsy_stringable (v : JsValue) :
  truthy v = false -> stringable E v = true.
Proof.
  destruct v; simpl; try reflexivity; discriminate.
Qed.

Lemma optional_string_stringable (v : JsValue) :
  optional_string v = true -> stringable E v = true.
Proof.
  destruct v; simpl; try reflexivity; discriminate.
Qed.

Lemma or_else_stringable (a b : JsValue) :
  stringable E a = true -> stringable E b = true ->
  stringable E (or_else a b) = true.
Proof.
  unfold or_else. destruct (truthy a); trivial.
Qed.

(** ** [new Date] and [_formatTime] *)

Lemma new_Date_total (v : JsValue) :
  stringable E v = true -> exists d, new_Date E v = Normal d.
Proof.
  intros H. apply stringable_Normal in H. destruct H as [s Hs].
  destruct v; simpl; try (eexists; reflexivity).
  - simpl in Hs. rewrite Hs. simpl. eexists; reflexivity.
  - simpl in Hs. rewrite Hs. simpl. eexists; reflexivity.
Qed.

Lemma new_Date_throws (v : JsValue) :
  stringable E v = false -> new_Date E v = Throw TypeError.
Proof.
  intros H. apply ToString_throws in H.
  destruct v; simpl in *; try discriminate; rewrite H; reflexivity.
Qed.

(** The [catch] branch of [_formatTime] never produces a string: the
    constructor throws only on a value that [String] rejects as well. So
    the method is the early return followed by the unguarded body. *)
Lemma formatTime_unfold (timestamp : JsValue) :
  _formatTime E timestamp =
  if truthy timestamp
  then (date <- new_Date E timestamp ;; Normal (toLocaleString E date))
  else Normal EmptyString.
Proof.
  unfold _formatTime. destruct (truthy timestamp); simpl; [| reflexivity].
  destruct (stringable E timestamp) eqn:Hs.
  - destruct (new_Date_total _ Hs) as [d Hd]. rewrite Hd. reflexivity.
  - rewrite (new_Date_throws _ Hs). simpl.
    apply ToString_throws. exact Hs.
Qed.

Lemma formatTime_falsy (timestamp : JsValue) :
  truthy timestamp = false -> _formatTime E timestamp = Normal EmptyString.
Proof.
  intros H. unfold _formatTime. rewrite H. reflexivity.
Qed.

Lemma formatTime_total (timestamp : JsValue) :
  stringable E timestamp = true ->
  exists s, _formatTime E timestamp = Normal s.
Proof.
  intros H. rewrite formatTime_unfold. destruct (truthy timestamp).
  - destruct (new_Date_total _ H) as [d Hd]. rewrite Hd.
    eexists; reflexivity.
  - eexists; reflexivity.
Qed.

Lemma formatTime_throws (timestamp : JsValue) :
  stringable E timestamp = false ->
  _formatTime E timestamp = Throw TypeError.
Proof.
  intros H. rewrite formatTime_unfold.
  destruct (truthy timestamp) eqn:Ht.
  - rewrite (new_Date_throws _ H). reflexivity.
  - rewrite (falsy_stringable _ Ht) in H. discriminate H.
Qed.

(** A truthy timestamp that makes an Invalid Date is shown as the text
    [Invalid Date]. *)
Lemma formatTime_invalid (timestamp : JsValue) :
  truthy timestamp = true ->
  new_Date E timestamp = Normal None ->
  _formatTime E timestamp = Normal "Invalid Date".
Proof.
  intros Ht Hd. rewrite formatTime_unfold, Ht, Hd. reflexivity.
Qed.

(** A number beyond the range of time values makes an Invalid Date on
    every engine. *)
Lemma formatTime_out_of_range :
  _formatTime E (VNum 1e20) = Normal "Invalid Date".
Proof. reflexivity. Qed.

(** ** [_getTypeInfo] *)

Lemma getTypeInfo_string (type : string) :
  _getTypeInfo E (VStr type) =
  Normal (match lookup types type with
          | Own theme => Theme theme
          | Inherited name => PrototypeMember name
          | Missing => Theme fallback_theme
          end).
Proof. reflexivity. Qed.

Lemma getTypeInfo_absent :
  _getTypeInfo E VUndefined = Normal (Theme fallback_theme).
Proof. reflexivity. Qed.

Lemma getTypeInfo_total (type : JsValue) :
  stringable E type = true -> exists typeInfo, _getTypeInfo E type = Normal typeInfo.
Proof.
  intros H. apply stringable_Normal in H. destruct H as [key Hkey].
  unfold _getTypeInfo. rewrite Hkey. simpl. eexists; reflexivity.
Qed.

Lemma getTypeInfo_throws (type : JsValue) :
  stringable E type = false -> _getTypeInfo E type = Throw TypeError.
Proof.
  intros H. apply ToString_throws in H.
  unfold _getTypeInfo. rewrite H. reflexivity.
Qed.

(** A tag that is neither in the table nor a name of [Object.prototype]
    gets the fallback theme. *)
Lemma getTypeInfo_unrecognized (type : string) :
  own_prop types type = None ->
  in_Object_prototype type = false ->
  _getTypeInfo E (VStr type) = Normal (Theme fallback_theme).
Proof.
  intros Hown Hproto. rewrite getTypeInfo_string.
  unfold lookup. rewrite Hown, Hproto. reflexivity.
Qed.

(** A tag that names a member of [Object.prototype] gets that member. *)
Lemma getTypeInfo_inherited (type : string) :
  in_Object_prototype type = true ->
  _getTypeInfo E (VStr type) = Normal (PrototypeMember type).
Proof.
  intros Hproto. rewrite getTypeInfo_string. unfold lookup.
  assert (Hown : own_prop types type = None).
  { unfold in_Object_prototype, Object_prototype_names in Hproto.
    simpl in Hproto.
    repeat (apply orb_prop in Hproto;
            destruct Hproto as [Hproto | Hproto];
            [apply String.eqb_eq in Hproto; subst; reflexivity |]).
    discriminate Hproto. }
  rewrite Hown, Hproto. reflexivity.
Qed.

(** ** Rows *)

(** On an incident that is not [undefined] or [null] no property read
    throws, and the callback is the sequence of its conversions. *)
Lemma render_row_unfold (einsatz : JsValue) :
  nullish einsatz = false ->
  render_row E einsatz =
  (typeInfo <- _getTypeInfo E (field einsatz f_type) ;;
   timeStr <- _formatTime E (field einsatz f_timestamp) ;;
   keyword_text <-
     ToString E (or_else (field einsatz f_keyword) (VStr "Unbekannt")) ;;
   unit_text <- unit_text_of E (field einsatz f_unit) ;;
   vehicles_text <-
     ToString E (or_else (field einsatz f_vehicles)
                         (VStr "Keine Fahrzeuge")) ;;
   Normal {| row_typeInfo := typeInfo;
             row_keyword := keyword_text;
             row_unit := unit_text;
             row_vehicles := vehicles_text;
             row_timeStr := timeStr |}).
Proof.
  intros Hn.
  assert (Hunit : forall un : JsValue,
             (if truthy (or_else un (VStr EmptyString))
              then s <- ToString E (or_else un (VStr EmptyString)) ;;
                   Normal (Some s)
              else Normal None) = unit_text_of E un).
  { intros un. unfold unit_text_of, or_else.
    destruct (truthy un) eqn:Hu; [rewrite Hu |]; reflexivity. }
  destruct einsatz; try discriminate Hn;
    unfold render_row, field; simpl Get; cbv beta iota delta [bind];
    rewrite Hunit; reflexivity.
Qed.

Lemma render_row_nullish (einsatz : JsValue) :
  nullish einsatz = true -> render_row E einsatz = Throw TypeError.
Proof.
  destruct einsatz; try discriminate; reflexivity.
Qed.

Lemma incident_ok_fields (einsatz : JsValue) :
  incident_ok E einsatz = true <->
  nullish einsatz = false /\
  stringable E (field einsatz f_type) = true /\
  stringable E (field einsatz f_keyword) = true /\
  stringable E (field einsatz f_vehicles) = true /\
  stringable E (field einsatz f_timestamp) = true /\
  stringable E (field einsatz f_unit) = true.
Proof.
  unfold incident_ok, row_fields. simpl forallb.
  rewrite !andb_true_iff, negb_true_iff. tauto.
Qed.

Lemma unit_text_total (un : JsValue) :
  stringable E un = true -> exists u, unit_text_of E un = Normal u.
Proof.
  intros H. apply stringable_Normal in H. destruct H as [s Hs].
  unfold unit_text_of. destruct (truthy un).
  - rewrite Hs. eexists; reflexivity.
  - eexists; reflexivity.
Qed.

(** The callback returns a row exactly on the incidents [incident_ok]
    accepts, and the row holds what the source computes. *)
Lemma render_row_ok (einsatz : JsValue) :
  incident_ok E einsatz = true ->
  exists typeInfo timeStr keyword_text unit_text vehicles_text,
    _getTypeInfo E (field einsatz f_type) = Normal typeInfo /\
    _formatTime E (field einsatz f_timestamp) = Normal timeStr /\
    ToString E (or_else (field einsatz f_keyword) (VStr "Unbekannt"))
      = Normal keyword_text /\
    unit_text_of E (field einsatz f_unit) = Normal unit_text /\
    ToString E (or_else (field einsatz f_vehicles) (VStr "Keine Fahrzeuge"))
      = Normal vehicles_text /\
    render_row E einsatz =
      Normal {| row_typeInfo := typeInfo;
                row_keyword := keyword_text;
                row_unit := unit_text;
                row_vehicles := vehicles_text;
                row_timeStr := timeStr |}.
Proof.
  intros H. apply incident_ok_fields in H.
  destruct H as (Hn & Hty & Hkw & Hvh & Hts & Hun).
  destruct (getTypeInfo_total _ Hty) as [typeInfo HtypeInfo].
  destruct (formatTime_total _ Hts) as [timeStr HtimeStr].
  assert (Hk : stringable E (or_else (field einsatz f_keyword)
                                      (VStr "Unbekannt")) = true)
    by (apply or_else_stringable; [exact Hkw | reflexivity]).
  assert (Hv : stringable E (or_else (field einsatz f_vehicles)
                                      (VStr "Keine Fahrzeuge")) = true)
    by (apply or_else_stringable; [exact Hvh | reflexivity]).
  apply stringable_Normal in Hk. destruct Hk as [keyword_text Hk].
  apply stringable_Normal in Hv. destruct Hv as [vehicles_text Hv].
  destruct (unit_text_total _ Hun) as [unit_text Hu].
  exists typeInfo, timeStr, keyword_text, unit_text, vehicles_text.
  repeat (split; [assumption |]).
  rewrite (render_row_unfold _ Hn), HtypeInfo, HtimeStr, Hk, Hu, Hv.
  reflexivity.
Qed.

Lemma render_row_total (einsatz : JsValue) :
  incident_ok E einsatz = true -> exists r, render_row E einsatz = Normal r.
Proof.
  intros H. destruct (render_row_ok _ H) as (ti & ts & k & u & v & H').
  eexists. apply H'.
Qed.

Lemma or_else_unstringable (a b : JsValue) :
  stringable E a = false -> or_else a b = a.
Proof.
  intros H. unfold or_else. destruct (truthy a) eqn:Ht; [reflexivity |].
  rewrite (falsy_stringable _ Ht) in H. discriminate H.
Qed.

Lemma unit_text_throws (un : JsValue) :
  stringable E un = false -> unit_text_of E un = Throw TypeError.
Proof.
  intros H. unfold unit_text_of. destruct (truthy un) eqn:Ht.
  - apply ToString_throws in H. rewrite H. reflexivity.
  - rewrite (falsy_stringable _ Ht) in H. discriminate H.
Qed.

(** Outside [incident_ok] the callback throws. *)
Lemma render_row_throws (einsatz : JsValue) :
  incident_ok E einsatz = false -> render_row E einsatz = Throw TypeError.
Proof.
  intros H. destruct (nullish einsatz) eqn:Hn.
  - apply render_row_nullish. exact Hn.
  - rewrite (render_row_unfold _ Hn).
    destruct (stringable E (field einsatz f_type)) eqn:Hty;
      [| rewrite (getTypeInfo_throws _ Hty); reflexivity].
    destruct (getTypeInfo_total _ Hty) as [ti ->]. simpl.
    destruct (stringable E (field einsatz f_timestamp)) eqn:Hts;
      [| rewrite (formatTime_throws _ Hts); reflexivity].
    destruct (formatTime_total _ Hts) as [ts ->]. simpl.
    destruct (stringable E (field einsatz f_keyword)) eqn:Hkw;
      [| rewrite (or_else_unstringable _ _ Hkw);
         apply ToString_throws in Hkw; rewrite Hkw; reflexivity].
    assert (Hk : stringable E (or_else (field einsatz f_keyword)
                                        (VStr "Unbekannt")) = true)
      by (apply or_else_stringable; [exact Hkw | reflexivity]).
    apply stringable_Normal in Hk. destruct Hk as [k ->]. simpl.
    destruct (stringable E (field einsatz f_unit)) eqn:Hun;
      [| rewrite (unit_text_throws _ Hun); reflexivity].
    destruct (unit_text_total _ Hun) as [u ->]. simpl.
    destruct (stringable E (field einsatz f_vehicles)) eqn:Hvh;
      [| rewrite (or_else_unstringable _ _ Hvh);
         apply ToString_throws in Hvh; rewrite Hvh; reflexivity].
    exfalso.
    assert (Hok : incident_ok E einsatz = true)
      by (apply incident_ok_fields; repeat split; assumption).
    rewrite Hok in H. discriminate H.
Qed.

Lemma incident_record_ok (einsatz : JsValue) :
  incident_record einsatz = true -> incident_ok E einsatz = true.
Proof.
  intros H. destruct einsatz; try discriminate H.
  unfold incident_record, row_fields in H. simpl forallb in H.
  rewrite !andb_true_iff in H.
  destruct H as (Hty & Hkw & Hvh & Hts & Hun & _).
  apply incident_ok_fields.
  repeat split; try reflexivity; apply optional_string_stringable; assumption.
Qed.

Lemma rows_total (items : list JsValue) :
  forallb (incident_ok E) items = true ->
  exists rows, mapM (render_row E) items = Normal rows.
Proof.
  intros H. apply mapM_total. rewrite forallb_forall in H.
  apply Forall_forall. intros x Hx. apply render_row_total, H, Hx.
Qed.

(** ** [_render] *)

Lemma render_view_no_hass (c : Card) :
  _hass c = None -> render_view E c = Normal None.
Proof.
  intros H. unfold render_view. rewrite H. reflexivity.
Qed.

(** The branch taken when the state object is found and its
    [attributes.einsaetze] can be read. *)
Lemma render_view_found (c : Card) (hass : Hass) (key : string)
  (stateObj attributes ei : JsValue) :
  _hass c = Some hass ->
  ToString E (entityId c) = Normal key ->
  lookup (states hass) key = Own stateObj ->
  truthy stateObj = true ->
  Get stateObj f_attributes = Normal attributes ->
  Get attributes f_einsaetze = Normal ei ->
  render_view E c =
  (empty <- length_is_zero (or_else ei (VArr [])) ;;
   if empty then
     title_text <- ToString E (title c) ;;
     Normal (Some (EmptyView title_text))
   else
     rows <- map_rows E (or_else ei (VArr [])) ;;
     title_text <- ToString E (title c) ;;
     Normal (Some (ListView title_text rows))).
Proof.
  intros Hh Hkey Hl Ht Ha Hei.
  unfold render_view. rewrite Hh, Hkey. simpl bind. rewrite Hl.
  simpl found. rewrite Ht. simpl negb. cbv iota.
  simpl Get_attributes. rewrite Ha. simpl bind. rewrite Hei. reflexivity.
Qed.

(** What [_render] leaves in the card once the view is known. *)
Lemma render_of_view (c : Card) (view : RenderedView) :
  render_view E c = Normal (Some view) ->
  _render E c = Normal {| _config := _config c;
                          _hass := _hass c;
                          innerHTML := innerHTML_of view |}.
Proof.
  intros H. unfold _render. rewrite H. reflexivity.
Qed.

Lemma render_throws (c : Card) :
  render_view E c = Throw TypeError -> _render E c = Throw TypeError.
Proof.
  intros H. unfold _render. rewrite H. reflexivity.
Qed.

(** The three outcomes of [_render], one lemma each. *)

Lemma render_view_not_found (c : Card) (hass : Hass)
  (title_text entity_text : string) :
  _hass c = Some hass ->
  ToString E (title c) = Normal title_text ->
  ToString E (entityId c) = Normal entity_text ->
  found (lookup (states hass) entity_text) = false ->
  render_view E c = Normal (Some (ErrorView title_text entity_text)).
Proof.
  intros Hh Htitle Hentity Hfound.
  unfold render_view. rewrite Hh, Hentity. simpl bind.
  rewrite Hfound. simpl negb. cbv iota.
  rewrite Htitle. reflexivity.
Qed.

Lemma render_view_falsy_incidents (c : Card) (hass : Hass)
  (key title_text : string) (stateObj attributes ei : JsValue) :
  _hass c = Some hass ->
  ToString E (title c) = Normal title_text ->
  ToString E (entityId c) = Normal key ->
  lookup (states hass) key = Own stateObj ->
  truthy stateObj = true ->
  Get stateObj f_attributes = Normal attributes ->
  Get attributes f_einsaetze = Normal ei ->
  truthy ei = false ->
  render_view E c = Normal (Some (EmptyView title_text)).
Proof.
  intros Hh Htitle Hkey Hl Ht Ha Hei Hfalsy.
  rewrite (render_view_found c hass key stateObj attributes ei)
    by assumption.
  unfold or_else. rewrite Hfalsy. simpl. rewrite Htitle. reflexivity.
Qed.

Lemma render_view_array (c : Card) (hass : Hass)
  (key title_text : string) (stateObj attributes : JsValue)
  (items : list JsValue) :
  _hass c = Some hass ->
  ToString E (title c) = Normal title_text ->
  ToString E (entityId c) = Normal key ->
  lookup (states hass) key = Own stateObj ->
  truthy stateObj = true ->
  Get stateObj f_attributes = Normal attributes ->
  Get attributes f_einsaetze = Normal (VArr items) ->
  render_view E c =
  match items with
  | [] => Normal (Some (EmptyView title_text))
  | _ :: _ =>
      rows <- mapM (render_row E) items ;;
      Normal (Some (ListView title_text rows))
  end.
Proof.
  intros Hh Htitle Hkey Hl Ht Ha Hei.
  rewrite (render_view_found c hass key stateObj attributes (VArr items))
    by assumption.
  unfold or_else. simpl truthy. cbv iota.
  destruct items as [| einsatz rest].
  - simpl. rewrite Htitle. reflexivity.
  - unfold map_rows.
    generalize (mapM (render_row E) (einsatz :: rest)).
    intros [rows | e]; simpl; [rewrite Htitle |]; reflexivity.
Qed.

(** An [einsaetze] that is truthy and neither an array nor an object has
    no callable [map]. *)
Lemma render_view_not_an_array (c : Card) (hass : Hass)
  (key : string) (stateObj attributes ei : JsValue) :
  _hass c = Some hass ->
  ToString E (entityId c) = Normal key ->
  lookup (states hass) key = Own stateObj ->
  truthy stateObj = true ->
  Get stateObj f_attributes = Normal attributes ->
  Get attributes f_einsaetze = Normal ei ->
  truthy ei = true ->
  match ei with VArr _ | VObj _ => False | _ => True end ->
  render_view E c = Throw TypeError.
Proof.
  intros Hh Hkey Hl Ht Ha Hei Htruthy Hshape.
  rewrite (render_view_found c hass key stateObj attributes ei)
    by assumption.
  unfold or_else. rewrite Htruthy.
  destruct ei as [| | b | n | s | items | props];
    try contradiction; try discriminate Htruthy; simpl.
  - reflexivity.
  - reflexivity.
  - destruct s as [| ch s']; [discriminate Htruthy | reflexivity].
Qed.

(** ** The claims about [_render] *)

(** C4. When the configured entity is not found among the states (the
    lookup finds nothing, or finds a falsy value), [_render] shows the
    error view, whatever else the states hold, and the view carries the
    title and the entity identifier that was looked up. *)
Theorem entity_not_found_error_view (c : Card) (hass : Hass)
  (title_text entity_text : string) :
  _hass c = Some hass ->
  ToString E (title c) = Normal title_text ->
  ToString E (entityId c) = Normal entity_text ->
  found (lookup (states hass) entity_text) = false ->
  render_view E c = Normal (Some (ErrorView title_text entity_text)) /\
  _render E c = Normal {| _config := _config c;
                          _hass := _hass c;
                          innerHTML := error_markup title_text entity_text |}.
Proof.
  intros Hh Htitle Hentity Hfound.
  pose proof (render_view_not_found c hass title_text entity_text
                Hh Htitle Hentity Hfound) as Hview.
  split; [exact Hview | exact (render_of_view _ _ Hview)].
Qed.

(** C10. When the state object is found and has an [attributes] value
    whose [einsaetze] is absent or falsy, [_render] takes the empty list
    and shows the empty view. *)
Theorem missing_incidents_empty_view (c : Card) (hass : Hass)
  (key title_text : string) (stateObj attributes ei : JsValue) :
  _hass c = Some hass ->
  ToString E (title c) = Normal title_text ->
  ToString E (entityId c) = Normal key ->
  lookup (states hass) key = Own stateObj ->
  truthy stateObj = true ->
  Get stateObj f_attributes = Normal attributes ->
  Get attributes f_einsaetze = Normal ei ->
  truthy ei = false ->
  render_view E c = Normal (Some (EmptyView title_text)) /\
  _render E c = Normal {| _config := _config c;
                          _hass := _hass c;
                          innerHTML := card_markup title_text empty_content |}.
Proof.
  intros Hh Htitle Hkey Hl Ht Ha Hei Hfalsy.
  pose proof (render_view_falsy_incidents c hass key title_text stateObj
                attributes ei Hh Htitle Hkey Hl Ht Ha Hei Hfalsy) as Hview.
  split; [exact Hview | exact (render_of_view _ _ Hview)].
Qed.

(** C5. When the state object is found and [einsaetze] is an array of
    incidents that can be turned into rows: an empty array gives the
    empty view; any other gives the list view with one row per incident,
    the i-th row being the row of the i-th incident. *)
Theorem found_empty_or_list_view (c : Card) (hass : Hass)
  (key title_text : string) (stateObj attributes : JsValue)
  (items : list JsValue) :
  _hass c = Some hass ->
  ToString E (title c) = Normal title_text ->
  ToString E (entityId c) = Normal key ->
  lookup (states hass) key = Own stateObj ->
  truthy stateObj = true ->
  Get stateObj f_attributes = Normal attributes ->
  Get attributes f_einsaetze = Normal (VArr items) ->
  forallb (incident_ok E) items = true ->
  match items with
  | [] => render_view E c = Normal (Some (EmptyView title_text))
  | _ :: _ =>
      exists rows,
        render_view E c = Normal (Some (ListView title_text rows)) /\
        List.length rows = List.length items /\
        Forall2 (fun einsatz r => render_row E einsatz = Normal r) items rows
  end.
Proof.
  intros Hh Htitle Hkey Hl Ht Ha Hei Hok.
  rewrite (render_view_array c hass key title_text stateObj attributes items)
    by assumption.
  destruct items as [| einsatz rest]; [reflexivity |].
  destruct (rows_total _ Hok) as [rows Hrows].
  exists rows. rewrite Hrows. split; [reflexivity | split].
  - exact (mapM_length _ _ _ Hrows).
  - apply mapM_rows. exact Hrows.
Qed.

(** C1, as the code has it. On a well-formed snapshot ([snapshot_ok]: the
    title and the entity identifier have string forms, and the entity is
    not found, or is found with an [attributes] value that is not
    [undefined] or [null] and whose [einsaetze] is falsy or an array of
    incidents, none of them [undefined] or [null], whose five fields have
    string forms) [_render] throws nothing and shows one of the three
    views. *)
Theorem render_well_formed (c : Card) :
  snapshot_ok E c = true ->
  exists view,
    render_view E c = Normal (Some view) /\
    _render E c = Normal {| _config := _config c;
                            _hass := _hass c;
                            innerHTML := innerHTML_of view |} /\
    ((exists t e, view = ErrorView t e) \/
     (exists t, view = EmptyView t) \/
     (exists t rows, view = ListView t rows)).
Proof.
  intros Hok.
  assert (Hshape : forall view : RenderedView,
             (exists t e, view = ErrorView t e) \/
             (exists t, view = EmptyView t) \/
             (exists t rows, view = ListView t rows)).
  { intros [t e | t | t rows]; eauto. }
  enough (Hview : exists view, render_view E c = Normal (Some view)).
  { destruct Hview as [view Hview]. exists view.
    split; [exact Hview |].
    split; [exact (render_of_view _ _ Hview) | apply Hshape]. }
  unfold snapshot_ok in Hok.
  destruct (_hass c) as [hass |] eqn:Hh; [| discriminate Hok].
  apply andb_true_iff in Hok. destruct Hok as [Htitle Hok].
  apply stringable_Normal in Htitle. destruct Htitle as [t Htitle].
  destruct (ToString E (entityId c)) as [key |] eqn:Hkey;
    [| discriminate Hok].
  destruct (lookup (states hass) key) as [stateObj | name |] eqn:Hl.
  - destruct (truthy stateObj) eqn:Ht.
    + simpl in Hok. apply andb_true_iff in Hok. destruct Hok as [Hn Hinc].
      apply negb_true_iff in Hn.
      assert (Ha : Get stateObj f_attributes
                   = Normal (field stateObj f_attributes)).
      { destruct stateObj; try discriminate Ht; reflexivity. }
      assert (Hei : Get (field stateObj f_attributes) f_einsaetze
                    = Normal (field (field stateObj f_attributes) f_einsaetze)).
      { destruct (field stateObj f_attributes);
          try discriminate Hn; reflexivity. }
      remember (field (field stateObj f_attributes) f_einsaetze) as ei.
      unfold incidents_ok in Hinc.
      destruct (truthy ei) eqn:Hei_truthy.
      * simpl in Hinc. destruct ei as [| | | | | items |];
          try discriminate Hinc.
        rewrite (render_view_array c hass key t stateObj _ items
                   Hh Htitle Hkey Hl Ht Ha Hei).
        destruct items as [| einsatz rest]; [eexists; reflexivity |].
        destruct (rows_total _ Hinc) as [rows Hrows]. rewrite Hrows.
        eexists; reflexivity.
      * eexists.
        exact (render_view_falsy_incidents c hass key t stateObj _ ei
                 Hh Htitle Hkey Hl Ht Ha Hei Hei_truthy).
    + eexists. apply (render_view_not_found c hass t key Hh Htitle Hkey).
      rewrite Hl. simpl. exact Ht.
  - discriminate Hok.
  - eexists. apply (render_view_not_found c hass t key Hh Htitle Hkey).
    rewrite Hl. reflexivity.
Qed.

(** C7. The outcome of a render depends on the configuration and the
    [hass] object alone: the previous content of the element does not
    enter it, a second [_render] leaves the card as the first one made it,
    and so does a second delivery of the same [hass]. *)
Theorem render_idempotent (c : Card) (hass : option Hass)
  (previous : string) :
  render_view E {| _config := _config c;
                   _hass := _hass c;
                   innerHTML := previous |} = render_view E c /\
  (c' <- _render E c ;; _render E c') = _render E c /\
  (c' <- set_hass E hass c ;; set_hass E hass c') = set_hass E hass c.
Proof.
  assert (Hagain : forall k : Card,
             (k' <- _render E k ;; _render E k') = _render E k).
  { intros k. unfold _render at 1 3.
    destruct (render_view E k) as [[view |] | e] eqn:Hview; simpl.
    - unfold _render.
      change (render_view E {| _config := _config k;
                               _hass := _hass k;
                               innerHTML := innerHTML_of view |})
        with (render_view E k).
      rewrite Hview. reflexivity.
    - unfold _render. rewrite Hview. reflexivity.
    - reflexivity. }
  split; [reflexivity | split; [apply Hagain |]].
  unfold set_hass.
  set (k := {| _config := _config c; _hass := hass;
               innerHTML := innerHTML c |}).
  rewrite <- (Hagain k) at 2.
  destruct (_render E k) as [k' |] eqn:Hk; simpl; [| reflexivity].
  unfold _render in Hk.
  destruct (render_view E k) as [[view |] | e]; simpl in Hk;
    try discriminate Hk; injection Hk as <-; reflexivity.
Qed.

(** ** The claims about rows *)

Lemma fallback_text (v : JsValue) (placeholder text : string) :
  truthy v = false ->
  ToString E (or_else v (VStr placeholder)) = Normal text ->
  text = placeholder.
Proof.
  intros Hv H. unfold or_else in H. rewrite Hv in H. simpl in H.
  injection H as <-. reflexivity.
Qed.

Lemma nullish_falsy (v : JsValue) : nullish v = true -> truthy v = false.
Proof.
  destruct v; try discriminate; reflexivity.
Qed.

(** C6, as the code has it. The row of an incident: the theme is what
    [_getTypeInfo] answers for its [type], the time what [_formatTime]
    answers for its [timestamp], an absent [keyword] ([undefined] or
    [null]) shows as Unbekannt, an absent [vehicles] as Keine Fahrzeuge.
    The unit line is there exactly when [unit] is truthy, and shows the
    string form of its value: for a [unit] that is a string, exactly when
    the string is not empty, and then it is that string; an absent [unit]
    gives no unit line. *)
Theorem row_assembly (einsatz : JsValue) :
  incident_ok E einsatz = true ->
  exists r,
    render_row E einsatz = Normal r /\
    _getTypeInfo E (field einsatz f_type) = Normal (row_typeInfo r) /\
    _formatTime E (field einsatz f_timestamp) = Normal (row_timeStr r) /\
    (nullish (field einsatz f_keyword) = true ->
     row_keyword r = "Unbekannt") /\
    (nullish (field einsatz f_vehicles) = true ->
     row_vehicles r = "Keine Fahrzeuge") /\
    (forall u : string,
        row_unit r = Some u <->
        truthy (field einsatz f_unit) = true /\
        ToString E (field einsatz f_unit) = Normal u) /\
    (forall s u : string,
        field einsatz f_unit = VStr s ->
        (row_unit r = Some u <-> u = s /\ s <> EmptyString)) /\
    (nullish (field einsatz f_unit) = true -> row_unit r = None).
Proof.
  intros Hok.
  destruct (render_row_ok _ Hok)
    as (typeInfo & timeStr & keyword_text & unit_text & vehicles_text
        & HtypeInfo & HtimeStr & Hkeyword & Hu & Hvehicles & Hrow).
  eexists. split; [exact Hrow |]. simpl.
  split; [exact HtypeInfo |]. split; [exact HtimeStr |].
  split; [| split; [| split; [| split]]].
  - intros Hn. apply (fallback_text _ _ _ (nullish_falsy _ Hn) Hkeyword).
  - intros Hn. apply (fallback_text _ _ _ (nullish_falsy _ Hn) Hvehicles).
  - intros u. unfold unit_text_of in Hu.
    destruct (truthy (field einsatz f_unit)) eqn:Ht.
    + destruct (ToString E (field einsatz f_unit)) as [text |] eqn:Hs;
        simpl in Hu; [| discriminate Hu].
      injection Hu as <-. split.
      * intros Heq. injection Heq as <-. split; reflexivity.
      * intros [_ Heq]. injection Heq as <-. reflexivity.
    + injection Hu as <-. split; [discriminate |].
      intros [Habs _]. discriminate Habs.
  - intros s u Hfield. rewrite Hfield in Hu.
    unfold unit_text_of in Hu. simpl in Hu.
    destruct (String.eqb s EmptyString) eqn:Hs; simpl in Hu;
      injection Hu as <-.
    + apply String.eqb_eq in Hs. subst s.
      split; [discriminate |].
      intros [_ Hne]. contradiction Hne. reflexivity.
    + apply String.eqb_neq in Hs. split.
      * intros Heq. injection Heq as <-. split; [reflexivity | exact Hs].
      * intros [-> _]. reflexivity.
  - intros Hn. unfold unit_text_of in Hu.
    rewrite (nullish_falsy _ Hn) in Hu. injection Hu as <-. reflexivity.
Qed.

(** C9. The placeholders answer to falsiness: an incident whose
    [keyword] is the empty string shows Unbekannt, one whose [vehicles]
    is the empty string shows Keine Fahrzeuge, a falsy [timestamp] gives
    an empty time, and [_formatTime] answers the empty string for the
    number 0 and for the empty string. *)
Theorem falsy_fields_fall_back (einsatz : JsValue) :
  incident_ok E einsatz = true ->
  exists r,
    render_row E einsatz = Normal r /\
    (field einsatz f_keyword = VStr EmptyString ->
     row_keyword r = "Unbekannt") /\
    (field einsatz f_vehicles = VStr EmptyString ->
     row_vehicles r = "Keine Fahrzeuge") /\
    (truthy (field einsatz f_timestamp) = false ->
     row_timeStr r = EmptyString) /\
    _formatTime E (VNum 0) = Normal EmptyString /\
    _formatTime E (VStr EmptyString) = Normal EmptyString.
Proof.
  intros Hok.
  destruct (render_row_ok _ Hok)
    as (typeInfo & timeStr & keyword_text & unit_text & vehicles_text
        & HtypeInfo & HtimeStr & Hkeyword & Hu & Hvehicles & Hrow).
  eexists. split; [exact Hrow |]. simpl.
  split; [| split; [| split; [| split; reflexivity]]].
  - intros Hk. rewrite Hk in Hkeyword.
    apply (fallback_text (VStr EmptyString) _ _ eq_refl Hkeyword).
  - intros Hv. rewrite Hv in Hvehicles.
    apply (fallback_text (VStr EmptyString) _ _ eq_refl Hvehicles).
  - intros Hts. rewrite (formatTime_falsy _ Hts) in HtimeStr.
    injection HtimeStr as <-. reflexivity.
Qed.

(** ** The claims about themes and times *)

(** C8. Each tag of the table gets its own theme, and neither the colour
    nor the background of that theme is the one of the fallback theme. *)
Theorem recognized_types_differ_from_fallback :
  Forall (fun entry : string * VisualTheme =>
            _getTypeInfo E (VStr (fst entry)) = Normal (Theme (snd entry)) /\
            color (snd entry) <> color fallback_theme /\
            bgColor (snd entry) <> bgColor fallback_theme)
         types.
Proof.
  unfold types.
  repeat (apply Forall_cons;
          [simpl; split; [reflexivity | split; discriminate] |]).
  apply Forall_nil.
Qed.

(** C3, at the tag [constructor]. [types] inherits a property of that
    name from [Object.prototype], so [_getTypeInfo] returns that built-in
    instead of the fallback theme, and the colour, background and icon
    read from it print as [undefined]. *)
Theorem constructor_tag_is_not_fallback :
  own_prop types "constructor" = None /\
  _getTypeInfo E (VStr "constructor")
    = Normal (PrototypeMember "constructor") /\
  _getTypeInfo E (VStr "constructor") <> Normal (Theme fallback_theme) /\
  typeInfo_prop color (PrototypeMember "constructor") = "undefined" /\
  typeInfo_prop bgColor (PrototypeMember "constructor") = "undefined" /\
  typeInfo_prop icon (PrototypeMember "constructor") = "undefined".
Proof.
  repeat split; try reflexivity. discriminate.
Qed.

(** C2, at the text [not-a-date]. On an engine whose [Date.parse] does
    not read that text, [new Date] makes an Invalid Date without
    throwing, [toLocaleString] prints it, and the [catch] branch that
    would return the raw text is not reached. *)
Theorem not_a_date_shown_as_Invalid_Date :
  Date_parse E "not-a-date" = None ->
  _formatTime E (VStr "not-a-date") = Normal "Invalid Date" /\
  _formatTime E (VStr "not-a-date") <> ToString E (VStr "not-a-date").
Proof.
  intros Hparse.
  assert (H : _formatTime E (VStr "not-a-date") = Normal "Invalid Date").
  { apply formatTime_invalid; [reflexivity |]. simpl. rewrite Hparse.
    reflexivity. }
  split; [exact H |]. rewrite H. simpl. discriminate.
Qed.

(** The render throws when [einsaetze] is a number, and when one of the
    incidents is [null], on every engine. *)
Lemma malformed_incidents_throw :
  _render E (card_with (hass_with (state_with (VNum 5)))) = Throw TypeError /\
  _render E (card_with (hass_with (state_with (VArr [fire_incident; VNull]))))
    = Throw TypeError.
Proof.
  split; reflexivity.
Qed.

End Properties.

(* ===================================================================== *)
(** * Further properties of the card *)
(* ===================================================================== *)

(** ** Lists of completions and strings *)

(** One element on which the callback throws makes the whole [map]
    throw. *)
Lemma mapM_throws {A B : Type} (f : A -> completion B) (l : list A)
  (x : A) :
  In x l -> f x = Throw TypeError -> mapM f l = Throw TypeError.
Proof.
  intros Hin Hx. induction l as [| a rest IH]; [contradiction Hin |].
  simpl. destruct (f a) as [y | []] eqn:Ha; [| reflexivity].
  destruct Hin as [-> | Hin]; [rewrite Hx in Ha; discriminate Ha |].
  simpl. rewrite (IH Hin). reflexivity.
Qed.

Lemma mapM_In {A B : Type} (f : A -> completion B) (l : list A)
  (ys : list B) (x : A) :
  mapM f l = Normal ys -> In x l -> exists y, In y ys /\ f x = Normal y.
Proof.
  intros H. apply mapM_rows in H.
  induction H as [| a y rest ys' Hy _ IH]; intros Hin; [contradiction Hin |].
  destruct Hin as [-> | Hin].
  - exists y. split; [left; reflexivity | exact Hy].
  - destruct (IH Hin) as [y' [Hin' Hy']].
    exists y'. split; [right; exact Hin' | exact Hy'].
Qed.

Lemma string_append_assoc (a b c : string) : (a ++ b) ++ c = a ++ b ++ c.
Proof.
  induction a as [| ch a IH]; simpl; [reflexivity | rewrite IH; reflexivity].
Qed.

Lemma string_append_empty (a : string) : a ++ EmptyString = a.
Proof.
  induction a as [| ch a IH]; simpl; [reflexivity | rewrite IH; reflexivity].
Qed.

Lemma contains_refl (s : string) : contains s s.
Proof.
  exists EmptyString, EmptyString. simpl.
  symmetry. apply string_append_empty.
Qed.

Lemma contains_app_r (s t part : string) :
  contains t part -> contains (s ++ t) part.
Proof.
  intros [before [after ->]]. exists (s ++ before), after.
  symmetry. apply string_append_assoc.
Qed.

Lemma contains_app_l (s t part : string) :
  contains s part -> contains (s ++ t) part.
Proof.
  intros [before [after ->]]. exists before, (after ++ t).
  rewrite !string_append_assoc. reflexivity.
Qed.

Lemma contains_trans (s t part : string) :
  contains s t -> contains t part -> contains s part.
Proof.
  intros [b1 [a1 ->]] H. apply contains_app_r, contains_app_l, H.
Qed.

Lemma concat_contains (l : list string) (x : string) :
  In x l -> contains (String.concat EmptyString l) x.
Proof.
  induction l as [| a rest IH]; [contradiction |].
  intros [-> | Hin].
  - destruct rest as [| b rest']; simpl.
    + apply contains_refl.
    + apply contains_app_l, contains_refl.
  - destruct rest as [| b rest']; [contradiction Hin |].
    change (contains (a ++ EmptyString
                      ++ String.concat EmptyString (b :: rest')) x).
    apply contains_app_r, contains_app_r, IH, Hin.
Qed.

Lemma join_rows_contains (rows : list RenderedRow) (r : RenderedRow) :
  In r rows -> contains (join_rows rows) (row_html r).
Proof.
  intros Hin. unfold join_rows. apply concat_contains, in_map, Hin.
Qed.

Lemma card_markup_contains (title_text content : string) :
  contains (card_markup title_text content) content.
Proof.
  unfold card_markup.
  do 3 apply contains_app_r. apply contains_app_l, contains_refl.
Qed.

Lemma row_html_contains_keyword (r : RenderedRow) :
  contains (row_html r) (row_keyword r).
Proof.
  unfold row_html, row_markup.
  do 11 apply contains_app_r. apply contains_app_l, contains_refl.
Qed.

Lemma row_html_contains_vehicles (r : RenderedRow) :
  contains (row_html r) (row_vehicles r).
Proof.
  unfold row_html, row_markup.
  do 15 apply contains_app_r. apply contains_app_l, contains_refl.
Qed.

Lemma row_html_contains_unit (r : RenderedRow) (u : string) :
  row_unit r = Some u -> contains (row_html r) u.
Proof.
  intros Hu. unfold row_html, row_markup. rewrite Hu.
  do 13 apply contains_app_r. apply contains_app_l.
  unfold unit_line. apply contains_app_r, contains_app_l, contains_refl.
Qed.

Section Further.

Variable E : Engine.

(** ** The callback of [map] *)

(** X1. The callback returns a row exactly for an incident that is not
    [undefined] or [null] and whose five fields have string forms; for
    every other incident it throws a [TypeError]. *)
Theorem render_row_exact (einsatz : JsValue) :
  (incident_ok E einsatz = true <->
   exists r, render_row E einsatz = Normal r) /\
  (incident_ok E einsatz = false <->
   render_row E einsatz = Throw TypeError).
Proof.
  destruct (incident_ok E einsatz) eqn:Hok.
  - destruct (render_row_total E _ Hok) as [r Hr].
    split; split; try discriminate.
    + intros _. exists r. exact Hr.
    + reflexivity.
    + rewrite Hr. discriminate.
  - pose proof (render_row_throws E _ Hok) as Hthrow.
    split; split; try discriminate.
    + intros [r Hr]. rewrite Hthrow in Hr. discriminate Hr.
    + intros _. exact Hthrow.
    + reflexivity.
Qed.

(** X2. What a row shows for fields that are set: a [keyword] or
    [vehicles] that is a string other than the empty one is shown as it
    is, and the unit line is there exactly when [unit] is truthy, with
    the string form of its value (so also for a number or [true]). *)
Theorem set_fields_shown (einsatz : JsValue) :
  incident_ok E einsatz = true ->
  exists r,
    render_row E einsatz = Normal r /\
    (forall k : string,
        field einsatz f_keyword = VStr k -> k <> EmptyString ->
        row_keyword r = k) /\
    (forall v : string,
        field einsatz f_vehicles = VStr v -> v <> EmptyString ->
        row_vehicles r = v) /\
    (forall u : string,
        row_unit r = Some u <->
        truthy (field einsatz f_unit) = true /\
        ToString E (field einsatz f_unit) = Normal u).
Proof.
  intros Hok.
  destruct (render_row_ok E _ Hok)
    as (typeInfo & timeStr & keyword_text & unit_text & vehicles_text
        & _ & _ & Hkeyword & Hu & Hvehicles & Hrow).
  assert (Hshown : forall (v : JsValue) (placeholder text s : string),
             ToString E (or_else v (VStr placeholder)) = Normal text ->
             v = VStr s -> s <> EmptyString -> text = s).
  { intros v placeholder text s H -> Hs. unfold or_else in H. simpl in H.
    apply String.eqb_neq in Hs. rewrite Hs in H. simpl in H.
    injection H as <-. reflexivity. }
  eexists. split; [exact Hrow |]. simpl.
  split; [| split].
  - intros k Hk Hne. exact (Hshown _ _ _ _ Hkeyword Hk Hne).
  - intros v Hv Hne. exact (Hshown _ _ _ _ Hvehicles Hv Hne).
  - intros u. unfold unit_text_of in Hu.
    destruct (truthy (field einsatz f_unit)) eqn:Ht.
    + destruct (ToString E (field einsatz f_unit)) as [s |] eqn:Hs;
        simpl in Hu; [| discriminate Hu].
      injection Hu as <-. split.
      * intros Heq. injection Heq as <-. split; reflexivity.
      * intros [_ Heq]. injection Heq as <-. reflexivity.
    + injection Hu as <-. split; [discriminate |].
      intros [Habs _]. discriminate Habs.
Qed.

(** ** Reading a view back *)

(** Every view [_render] shows comes from one of three paths through the
    method. *)
Lemma render_view_inv (c : Card) (view : RenderedView) :
  render_view E c = Normal (Some view) ->
  exists hass key title_text,
    _hass c = Some hass /\
    ToString E (entityId c) = Normal key /\
    ToString E (title c) = Normal title_text /\
    ((found (lookup (states hass) key) = false /\
      view = ErrorView title_text key) \/
     (exists stateObj attributes ei,
         lookup (states hass) key = Own stateObj /\
         truthy stateObj = true /\
         Get stateObj f_attributes = Normal attributes /\
         Get attributes f_einsaetze = Normal ei /\
         ((length_is_zero (or_else ei (VArr [])) = Normal true /\
           view = EmptyView title_text) \/
          (length_is_zero (or_else ei (VArr [])) = Normal false /\
           exists rows,
             map_rows E (or_else ei (VArr [])) = Normal rows /\
             view = ListView title_text rows)))).
Proof.
  unfold render_view. intros H.
  destruct (_hass c) as [hass |]; [| discriminate H].
  destruct (ToString E (entityId c)) as [key |] eqn:Hkey;
    [| discriminate H].
  simpl bind in H.
  destruct (found (lookup (states hass) key)) eqn:Hfound;
    simpl negb in H; cbv iota in H.
  - destruct (lookup (states hass) key) as [stateObj | name |] eqn:Hl;
      simpl in Hfound; simpl Get_attributes in H.
    + destruct (Get stateObj f_attributes) as [attributes |] eqn:Ha;
        [| discriminate H].
      simpl bind in H.
      destruct (Get attributes f_einsaetze) as [ei |] eqn:Hei;
        [| discriminate H].
      simpl bind in H.
      destruct (length_is_zero (or_else ei (VArr []))) as [[|] |] eqn:Hz;
        [| | discriminate H]; simpl bind in H; cbv iota in H.
      * destruct (ToString E (title c)) as [t |] eqn:Ht;
          [| discriminate H].
        injection H as <-.
        exists hass, key, t. repeat (split; [reflexivity |]).
        right. exists stateObj, attributes, ei.
        repeat (split; [assumption |]). left.
        split; [exact Hz | reflexivity].
      * destruct (map_rows E (or_else ei (VArr []))) as [rows |] eqn:Hrows;
          [| discriminate H].
        simpl bind in H.
        destruct (ToString E (title c)) as [t |] eqn:Ht;
          [| discriminate H].
        injection H as <-.
        exists hass, key, t. repeat (split; [reflexivity |]).
        right. exists stateObj, attributes, ei.
        repeat (split; [assumption |]). right.
        split; [exact Hz |]. exists rows. split; [exact Hrows | reflexivity].
    + discriminate H.
    + discriminate Hfound.
  - destruct (ToString E (title c)) as [t |] eqn:Ht; [| discriminate H].
    injection H as <-.
    exists hass, key, t. repeat (split; [reflexivity |]).
    left. split; [exact Hfound | reflexivity].
Qed.

(** X4. The error view is shown only when the configured entity is not
    found: then a [hass] is present, the lookup of the entity identifier
    among the states finds nothing or a falsy value, and the view carries
    the string forms of the title and of that identifier. Malformed data
    under a found entity never leads to it. *)
Theorem error_view_only_when_not_found (c : Card)
  (title_text entity_text : string) :
  render_view E c = Normal (Some (ErrorView title_text entity_text)) ->
  exists hass,
    _hass c = Some hass /\
    ToString E (title c) = Normal title_text /\
    ToString E (entityId c) = Normal entity_text /\
    found (lookup (states hass) entity_text) = false.
Proof.
  intros H. apply render_view_inv in H.
  destruct H as (hass & key & t & Hh & Hkey & Ht & Hcases).
  destruct Hcases as [[Hfound Hview] | Hcases].
  - injection Hview as <- <-. exists hass. repeat split; assumption.
  - destruct Hcases as (s & a & ei & _ & _ & _ & _ & [[_ Hv] | [_ Hv]]).
    + discriminate Hv.
    + destruct Hv as [rows [_ Hv]]. discriminate Hv.
Qed.

(** X5. A list view is shown only for an [einsaetze] that is an array
    with at least one incident; it has one row per incident, in order,
    and never zero rows. *)
Theorem list_view_only_for_nonempty_array (c : Card) (title_text : string)
  (rows : list RenderedRow) :
  render_view E c = Normal (Some (ListView title_text rows)) ->
  exists hass key stateObj attributes items,
    _hass c = Some hass /\
    ToString E (entityId c) = Normal key /\
    lookup (states hass) key = Own stateObj /\
    truthy stateObj = true /\
    Get stateObj f_attributes = Normal attributes /\
    Get attributes f_einsaetze = Normal (VArr items) /\
    items <> [] /\
    rows <> [] /\
    Forall2 (fun einsatz r => render_row E einsatz = Normal r) items rows.
Proof.
  intros H. apply render_view_inv in H.
  destruct H as (hass & key & t & Hh & Hkey & Ht & Hcases).
  destruct Hcases as [[_ Hview] | Hcases]; [discriminate Hview |].
  destruct Hcases as (s & a & ei & Hl & Hs & Ha & Hei & [[_ Hv] | Hlist]);
    [discriminate Hv |].
  destruct Hlist as (Hz & rows' & Hrows & Hv). injection Hv as <- <-.
  unfold or_else in Hz, Hrows.
  destruct (truthy ei) eqn:Hte; [| discriminate Hz].
  destruct ei as [| | | | | items |]; try discriminate Hrows.
  simpl in Hz, Hrows.
  destruct items as [| einsatz rest]; [discriminate Hz |].
  exists hass, key, s, a, (einsatz :: rest).
  repeat (split; [assumption |]).
  split; [discriminate |].
  pose proof (mapM_length _ _ _ Hrows) as Hlen.
  split.
  - intros ->. discriminate Hlen.
  - apply mapM_rows. exact Hrows.
Qed.

(** X6. The empty view has three causes, all under a found entity whose
    [attributes] can be read: an [einsaetze] that is absent or falsy, the
    empty array, or an object whose own [length] is the number 0. *)
Theorem empty_view_causes (c : Card) (title_text : string) :
  render_view E c = Normal (Some (EmptyView title_text)) ->
  exists hass key stateObj attributes ei,
    _hass c = Some hass /\
    ToString E (entityId c) = Normal key /\
    lookup (states hass) key = Own stateObj /\
    truthy stateObj = true /\
    Get stateObj f_attributes = Normal attributes /\
    Get attributes f_einsaetze = Normal ei /\
    (truthy ei = false \/
     ei = VArr [] \/
     exists props n,
       ei = VObj props /\
       own_prop props "length" = Some (VNum n) /\
       PrimFloat.eqb n 0 = true).
Proof.
  intros H. apply render_view_inv in H.
  destruct H as (hass & key & t & Hh & Hkey & Ht & Hcases).
  destruct Hcases as [[_ Hview] | Hcases]; [discriminate Hview |].
  destruct Hcases as (s & a & ei & Hl & Hs & Ha & Hei & [[Hz _] | Hlist]).
  - exists hass, key, s, a, ei. repeat (split; [assumption |]).
    unfold or_else in Hz.
    destruct (truthy ei) eqn:Hte; [| left; reflexivity].
    right.
    destruct ei as [| | b | n | str | items | props];
      try discriminate Hte; simpl in Hz; try discriminate Hz.
    + destruct str; [discriminate Hte | discriminate Hz].
    + left. destruct items; [reflexivity | discriminate Hz].
    + right.
      destruct (own_prop props "length") as [[| | | n | | |] |] eqn:Hlen;
        try discriminate Hz.
      exists props, n. injection Hz as Hz.
      split; [reflexivity | split; [exact Hlen | exact Hz]].
  - destruct Hlist as (_ & rows & _ & Hv). discriminate Hv.
Qed.

(** ** What makes [_render] throw *)

(** X3. One incident the callback cannot turn into a row, anywhere in
    the array, makes the whole render throw: no list without it is
    shown. *)
Theorem one_bad_incident_throws (c : Card) (hass : Hass) (key : string)
  (stateObj attributes : JsValue) (items : list JsValue)
  (einsatz : JsValue) :
  _hass c = Some hass ->
  ToString E (entityId c) = Normal key ->
  lookup (states hass) key = Own stateObj ->
  truthy stateObj = true ->
  Get stateObj f_attributes = Normal attributes ->
  Get attributes f_einsaetze = Normal (VArr items) ->
  In einsatz items ->
  incident_ok E einsatz = false ->
  render_view E c = Throw TypeError /\ _render E c = Throw TypeError.
Proof.
  intros Hh Hkey Hl Ht Ha Hei Hin Hbad.
  assert (Hview : render_view E c = Throw TypeError).
  { rewrite (render_view_found E c hass key stateObj attributes (VArr items))
      by assumption.
    unfold or_else. simpl truthy. cbv iota.
    destruct items as [| first rest]; [contradiction Hin |].
    unfold length_is_zero, map_rows.
    rewrite (mapM_throws (render_row E) (first :: rest) einsatz Hin
               (render_row_throws E _ Hbad)).
    reflexivity. }
  split; [exact Hview | exact (render_throws E _ Hview)].
Qed.

(** X7. An entity identifier that names a member of [Object.prototype]
    and has no state of its own is found on the prototype of [states]:
    the error view is not shown, and reading the attributes of the
    built-in throws. *)
Theorem inherited_entity_throws (c : Card) (hass : Hass) (key : string) :
  _hass c = Some hass ->
  ToString E (entityId c) = Normal key ->
  own_prop (states hass) key = None ->
  in_Object_prototype key = true ->
  render_view E c = Throw TypeError /\ _render E c = Throw TypeError.
Proof.
  intros Hh Hkey Hown Hproto.
  assert (Hview : render_view E c = Throw TypeError).
  { unfold render_view. rewrite Hh, Hkey. simpl bind.
    unfold lookup. rewrite Hown, Hproto. reflexivity. }
  split; [exact Hview | exact (render_throws E _ Hview)].
Qed.

(** X9. A found state object without [attributes] (the property is
    missing or [null], or the state is a truthy primitive) makes the
    render throw when it reads [einsaetze]. *)
Theorem missing_attributes_throws (c : Card) (hass : Hass) (key : string)
  (stateObj : JsValue) :
  _hass c = Some hass ->
  ToString E (entityId c) = Normal key ->
  lookup (states hass) key = Own stateObj ->
  truthy stateObj = true ->
  nullish (field stateObj f_attributes) = true ->
  render_view E c = Throw TypeError /\ _render E c = Throw TypeError.
Proof.
  intros Hh Hkey Hl Ht Hn.
  assert (Ha : Get stateObj f_attributes
               = Normal (field stateObj f_attributes)).
  { destruct stateObj; try discriminate Ht; reflexivity. }
  assert (Hview : render_view E c = Throw TypeError).
  { unfold render_view. rewrite Hh, Hkey. simpl bind. rewrite Hl.
    simpl found. rewrite Ht. simpl negb. cbv iota.
    simpl Get_attributes. rewrite Ha. simpl bind.
    destruct (field stateObj f_attributes); try discriminate Hn;
      reflexivity. }
  split; [exact Hview | exact (render_throws E _ Hview)].
Qed.

(** X8. A truthy [einsaetze] that is not an array: a number, [true] or
    a string without exception makes the render throw, for want of a
    [map] method; so does an object, unless its own [length] is the
    number 0, in which case the empty view is shown. *)
Theorem non_array_incidents (c : Card) (hass : Hass)
  (key title_text : string) (stateObj attributes ei : JsValue) :
  _hass c = Some hass ->
  ToString E (title c) = Normal title_text ->
  ToString E (entityId c) = Normal key ->
  lookup (states hass) key = Own stateObj ->
  truthy stateObj = true ->
  Get stateObj f_attributes = Normal attributes ->
  Get attributes f_einsaetze = Normal ei ->
  truthy ei = true ->
  match ei with VArr _ => False | _ => True end ->
  render_view E c =
  match ei with
  | VObj props =>
      match own_prop props "length" with
      | Some (VNum n) =>
          if PrimFloat.eqb n 0
          then Normal (Some (EmptyView title_text))
          else Throw TypeError
      | _ => Throw TypeError
      end
  | _ => Throw TypeError
  end.
Proof.
  intros Hh Htitle Hkey Hl Ht Ha Hei Htruthy Hshape.
  rewrite (render_view_found E c hass key stateObj attributes ei)
    by assumption.
  unfold or_else. rewrite Htruthy.
  destruct ei as [| | b | n | s | items | props];
    try contradiction; try discriminate Htruthy; simpl.
  - reflexivity.
  - reflexivity.
  - destruct s as [| ch s']; [discriminate Htruthy | reflexivity].
  - destruct (own_prop props "length") as [[| | | n | | |] |];
      try reflexivity.
    destruct (PrimFloat.eqb n 0); simpl; [rewrite Htitle |]; reflexivity.
Qed.

(** ** Text in the markup *)

(** X10. The texts of an incident go into the markup as they are:
    whatever string the [keyword], the [vehicles] or the [unit] of an
    incident of the list holds, markup included, occurs character for
    character in the [innerHTML] the render assigns. *)
Theorem incident_text_unescaped (c : Card) (hass : Hass)
  (key title_text : string) (stateObj attributes : JsValue)
  (items : list JsValue) (einsatz : JsValue) (f : Field) (text : string) :
  _hass c = Some hass ->
  ToString E (title c) = Normal title_text ->
  ToString E (entityId c) = Normal key ->
  lookup (states hass) key = Own stateObj ->
  truthy stateObj = true ->
  Get stateObj f_attributes = Normal attributes ->
  Get attributes f_einsaetze = Normal (VArr items) ->
  forallb (incident_ok E) items = true ->
  In einsatz items ->
  In f [f_keyword; f_vehicles; f_unit] ->
  field einsatz f = VStr text ->
  text <> EmptyString ->
  exists c',
    _render E c = Normal c' /\ contains (innerHTML c') text.
Proof.
  intros Hh Htitle Hkey Hl Ht Ha Hei Hok Hin Hf Hfield Hne.
  pose proof (render_view_array E c hass key title_text stateObj attributes
                items Hh Htitle Hkey Hl Ht Ha Hei) as Hview.
  destruct items as [| first rest]; [contradiction Hin |].
  destruct (rows_total E _ Hok) as [rows Hrows].
  rewrite Hrows in Hview. simpl bind in Hview.
  eexists. split; [exact (render_of_view E _ _ Hview) |]. simpl innerHTML.
  destruct (mapM_In _ _ _ _ Hrows Hin) as [r [Hr Hrow]].
  apply (contains_trans _ (join_rows rows)); [apply card_markup_contains |].
  apply (contains_trans _ (row_html r)); [apply join_rows_contains, Hr |].
  assert (Hone : incident_ok E einsatz = true).
  { rewrite forallb_forall in Hok. apply Hok, Hin. }
  destruct (render_row_ok E _ Hone)
    as (typeInfo & timeStr & keyword_text & unit_text & vehicles_text
        & _ & _ & Hkeyword & Hu & Hvehicles & Hrow').
  rewrite Hrow in Hrow'. injection Hrow' as ->.
  assert (Htruthy : truthy (VStr text) = true).
  { simpl. apply String.eqb_neq in Hne. rewrite Hne. reflexivity. }
  destruct Hf as [<- | [<- | [<- | []]]]; rewrite Hfield in *.
  - unfold or_else in Hkeyword. rewrite Htruthy in Hkeyword.
    injection Hkeyword as <-. apply row_html_contains_keyword.
  - unfold or_else in Hvehicles. rewrite Htruthy in Hvehicles.
    injection Hvehicles as <-. apply row_html_contains_vehicles.
  - unfold unit_text_of in Hu. rewrite Htruthy in Hu. simpl in Hu.
    injection Hu as <-. apply row_html_contains_unit. reflexivity.
Qed.

(** ** Successive updates *)

(** With a [hass] the method never returns before the assignment. *)
Lemma render_view_with_hass (c : Card) (hass : Hass) :
  _hass c = Some hass -> render_view E c <> Normal None.
Proof.
  intros Hh H. unfold render_view in H. rewrite Hh in H.
  destruct (ToString E _) as [key |]; simpl in H; [| discriminate].
  destruct (negb _);
    repeat (match type of H with
            | bind ?m _ = _ => destruct m; simpl in H
            | (if ?b then _ else _) = _ => destruct b; simpl in H
            end; try discriminate H).
Qed.

(** [set_hass] is [set_hass_state] without the card of the throwing
    case. *)
Lemma set_hass_state_agrees (hass : option Hass) (c : Card) :
  set_hass E hass c =
  match snd (set_hass_state E hass c) with
  | None => Normal (fst (set_hass_state E hass c))
  | Some e => Throw e
  end.
Proof.
  unfold set_hass, set_hass_state.
  destruct (_render E _) as [c' | e]; reflexivity.
Qed.

Lemma set_hass_state_config (hass : option Hass) (c : Card) :
  _config (fst (set_hass_state E hass c)) = _config c.
Proof.
  unfold set_hass_state, _render.
  destruct (render_view E _) as [[view |] | e]; reflexivity.
Qed.

Lemma update_after (c c1 : Card) (second : Hass) :
  _config c1 = _config c ->
  snd (set_hass_state E (Some second) c1)
    = snd (set_hass_state E (Some second) c) /\
  match snd (set_hass_state E (Some second) c) with
  | None =>
      fst (set_hass_state E (Some second) c1)
      = fst (set_hass_state E (Some second) c)
  | Some _ =>
      fst (set_hass_state E (Some second) c1)
      = {| _config := _config c;
           _hass := Some second;
           innerHTML := innerHTML c1 |}
  end /\
  set_hass_state E None c1
    = ({| _config := _config c; _hass := None; innerHTML := innerHTML c1 |},
       None).
Proof.
  destruct c1 as [config1 hass1 html1]. simpl. intros ->.
  unfold set_hass_state, _render. cbn [_config _hass innerHTML].
  change (render_view E {| _config := _config c; _hass := Some second;
                           innerHTML := html1 |})
    with (render_view E {| _config := _config c; _hass := Some second;
                           innerHTML := innerHTML c |}).
  destruct (render_view E {| _config := _config c;
                             _hass := Some second;
                             innerHTML := innerHTML c |})
    as [[view |] | e] eqn:Hv; simpl.
  - repeat split.
  - exfalso. revert Hv. apply (render_view_with_hass _ second). reflexivity.
  - repeat split.
Qed.

(** X12. The last [hass] wins when it renders. After any update (one that
    rendered or one that threw), a further update with a [hass] object
    throws or not as it would have without the earlier one; when it
    renders, the card is exactly the card that update alone would have
    left, and nothing of the earlier update remains; when it throws, the
    card holds the new [hass] and still shows the markup the earlier
    update left. An update with no [hass] stores it and keeps that
    markup too. *)
Theorem last_hass_wins (c : Card) (first : option Hass) (second : Hass) :
  let c1 := fst (set_hass_state E first c) in
  snd (set_hass_state E (Some second) c1)
    = snd (set_hass_state E (Some second) c) /\
  match snd (set_hass_state E (Some second) c) with
  | None =>
      fst (set_hass_state E (Some second) c1)
      = fst (set_hass_state E (Some second) c)
  | Some _ =>
      fst (set_hass_state E (Some second) c1)
      = {| _config := _config c;
           _hass := Some second;
           innerHTML := innerHTML c1 |}
  end /\
  set_hass_state E None c1
    = ({| _config := _config c; _hass := None; innerHTML := innerHTML c1 |},
       None).
Proof.
  intros c1. apply update_after. apply set_hass_state_config.
Qed.

(** X18. Only the incidents of the configured entity matter: two state
    objects for it, both with readable [attributes] and the same
    [einsaetze] value, render alike, whatever their [state], their other
    attributes and the other entities of the two [hass] objects are. *)
Theorem only_the_incidents_matter (c1 c2 : Card) (hass1 hass2 : Hass)
  (key : string) (stateObj1 stateObj2 attributes1 attributes2 ei : JsValue) :
  _config c1 = _config c2 ->
  _hass c1 = Some hass1 ->
  _hass c2 = Some hass2 ->
  ToString E (entityId c1) = Normal key ->
  lookup (states hass1) key = Own stateObj1 ->
  lookup (states hass2) key = Own stateObj2 ->
  truthy stateObj1 = true ->
  truthy stateObj2 = true ->
  Get stateObj1 f_attributes = Normal attributes1 ->
  Get stateObj2 f_attributes = Normal attributes2 ->
  Get attributes1 f_einsaetze = Normal ei ->
  Get attributes2 f_einsaetze = Normal ei ->
  render_view E c1 = render_view E c2.
Proof.
  intros Hcfg Hh1 Hh2 Hkey Hl1 Hl2 Ht1 Ht2 Ha1 Ha2 He1 He2.
  assert (Hkey2 : ToString E (entityId c2) = Normal key).
  { unfold entityId in *. rewrite <- Hcfg. exact Hkey. }
  rewrite (render_view_found E c1 hass1 key stateObj1 attributes1 ei)
    by assumption.
  rewrite (render_view_found E c2 hass2 key stateObj2 attributes2 ei)
    by assumption.
  unfold title. rewrite Hcfg. reflexivity.
Qed.

(** ** Times and themes *)

(** X11. [_formatTime] has three results and no other: the empty string
    for a falsy timestamp, the text [Invalid Date] for a truthy one that
    makes an Invalid Date, and the engine's [de-DE] text of the time
    value for a truthy one that makes a valid date. *)
Theorem formatTime_results (timestamp : JsValue) (s : string) :
  _formatTime E timestamp = Normal s <->
  (truthy timestamp = false /\ s = EmptyString) \/
  (truthy timestamp = true /\
   new_Date E timestamp = Normal None /\ s = "Invalid Date") \/
  (truthy timestamp = true /\
   exists tv, new_Date E timestamp = Normal (Some tv) /\
              s = toLocaleString_de_DE E tv).
Proof.
  rewrite formatTime_unfold. destruct (truthy timestamp) eqn:Ht.
  - destruct (new_Date E timestamp) as [[tv |] | e] eqn:Hd; simpl; split.
    + intros H. injection H as <-. right. right.
      split; [reflexivity |]. exists tv. split; reflexivity.
    + intros [[Habs _] | [(_ & Habs & _) | (_ & tv' & Htv & ->)]];
        try discriminate. injection Htv as <-. reflexivity.
    + intros H. injection H as <-. right. left. repeat split.
    + intros [[Habs _] | [(_ & _ & ->) | (_ & tv' & Htv & _)]];
        try discriminate. reflexivity.
    + discriminate.
    + intros [[Habs _] | [(_ & Habs & _) | (_ & tv' & Htv & _)]];
        discriminate.
  - split.
    + intros H. injection H as <-. left. split; reflexivity.
    + intros [[_ ->] | [(Habs & _) | (Habs & _)]];
        try discriminate. reflexivity.
Qed.

(** X13. For a type tag that is a string, [_getTypeInfo] answers the
    fallback theme exactly when the tag is none of [fire], [technical],
    [hazmat], compared character for character, and not a property name
    of [Object.prototype]. *)
Theorem fallback_theme_iff (type : string) :
  _getTypeInfo E (VStr type) = Normal (Theme fallback_theme) <->
  type <> "fire" /\ type <> "technical" /\ type <> "hazmat" /\
  in_Object_prototype type = false.
Proof.
  rewrite getTypeInfo_string. unfold lookup, types. cbn [own_prop].
  destruct (String.eqb "fire" type) eqn:H1.
  { apply String.eqb_eq in H1. subst type. split.
    - intros H. discriminate H.
    - intros [Habs _]. contradiction Habs. reflexivity. }
  destruct (String.eqb "technical" type) eqn:H2.
  { apply String.eqb_eq in H2. subst type. split.
    - intros H. discriminate H.
    - intros (_ & Habs & _). contradiction Habs. reflexivity. }
  destruct (String.eqb "hazmat" type) eqn:H3.
  { apply String.eqb_eq in H3. subst type. split.
    - intros H. discriminate H.
    - intros (_ & _ & Habs & _). contradiction Habs. reflexivity. }
  apply String.eqb_neq in H1, H2, H3.
  destruct (in_Object_prototype type); simpl; split.
  - intros H. discriminate H.
  - intros (_ & _ & _ & Habs). discriminate Habs.
  - intros _. repeat split; congruence.
  - reflexivity.
Qed.

(** ** Configuration and rendering *)

Lemma render_view_ext (c1 c2 : Card) :
  _hass c1 = _hass c2 ->
  entityId c1 = entityId c2 ->
  title c1 = title c2 ->
  render_view E c1 = render_view E c2.
Proof.
  intros Hh He Ht. unfold render_view. rewrite Hh, He, Ht. reflexivity.
Qed.

(** X15. The defaults of [setConfig] and of [_render] are the same: a
    card renders alike with the configuration as it was passed and with
    the one [setConfig] has completed. *)
Theorem setConfig_render_same (config : option JsObject) (c : Card) :
  render_view E (setConfig config c) =
  render_view E {| _config := match config with
                              | Some o => o
                              | None => []
                              end;
                   _hass := _hass c;
                   innerHTML := innerHTML c |}.
Proof.
  apply render_view_ext.
  - reflexivity.
  - rewrite setConfig_entityId. reflexivity.
  - rewrite setConfig_title. reflexivity.
Qed.

End Further.

(** ** [setConfig] *)

Lemma own_prop_other {A : Type} (k key : string) (v : A)
  (o : list (string * A)) :
  k <> key -> own_prop ((key, v) :: o) k = own_prop o k.
Proof.
  intros Hk. cbn [own_prop]. apply not_eq_sym in Hk.
  apply String.eqb_neq in Hk. rewrite Hk. reflexivity.
Qed.

Lemma own_prop_same {A : Type} (k : string) (v : A) (o : list (string * A)) :
  own_prop ((k, v) :: o) k = Some v.
Proof.
  cbn [own_prop]. rewrite String.eqb_refl. reflexivity.
Qed.

(** What [setConfig] leaves in a configuration it can assign to. *)
Lemma setConfig_assigned (config : option JsObject) (c : Card) :
  let passed := match config with Some o => o | None => [] end in
  let cfg := _config (setConfig config c) in
  truthy (own_or_undefined cfg "entity") = true /\
  truthy (own_or_undefined cfg "title") = true /\
  (truthy (own_or_undefined passed "entity") = true ->
   own_or_undefined cfg "entity" = own_or_undefined passed "entity") /\
  (truthy (own_or_undefined passed "title") = true ->
   own_or_undefined cfg "title" = own_or_undefined passed "title") /\
  (forall k : string,
      k <> "entity" -> k <> "title" -> own_prop cfg k = own_prop passed k).
Proof.
  intros passed cfg. subst cfg.
  unfold setConfig, set_prop. cbn [_config _hass innerHTML]. fold passed.
  assert (Hne : "title" <> "entity") by discriminate.
  assert (Hne' : "entity" <> "title") by discriminate.
  unfold own_or_undefined.
  destruct (truthy match own_prop passed "entity" with
                   | Some v => v
                   | None => VUndefined
                   end) eqn:Hte; cbn [negb];
    rewrite ?(own_prop_other _ _ _ _ Hne);
    destruct (truthy match own_prop passed "title" with
                     | Some v => v
                     | None => VUndefined
                     end) eqn:Htt; cbn [negb];
    rewrite ?own_prop_same, ?(own_prop_other _ _ _ _ Hne),
            ?(own_prop_other _ _ _ _ Hne'), ?own_prop_same, ?Hte, ?Htt;
    repeat split; trivial; try discriminate;
    intros k Hk1 Hk2; rewrite ?own_prop_other by assumption; reflexivity.
Qed.

(** On an extensible configuration, and without one, no assignment is
    refused and the card is the one [setConfig] describes. *)
Lemma setConfig_strict_extensible (config : option JsObject) (c : Card) :
  setConfig_strict config Extensible c = (setConfig config c, None).
Proof.
  unfold setConfig_strict, setConfig, assign.
  assert (Hi : match config with Some _ => Extensible | None => Extensible end
               = Extensible) by (destruct config; reflexivity).
  rewrite Hi. cbv zeta.
  destruct (negb (truthy (own_or_undefined
                            match config with Some o => o | None => [] end
                            "entity"))); cbv iota beta;
    destruct (negb (truthy (own_or_undefined _ "title"))); reflexivity.
Qed.

Lemma setConfig_strict_none (i : Integrity) (c : Card) :
  setConfig_strict None i c = (setConfig None c, None).
Proof. reflexivity. Qed.

(** The two ways a call of [setConfig] ends. *)
Lemma setConfig_strict_cases (config : option JsObject) (i : Integrity)
  (c : Card) :
  setConfig_strict config i c = (setConfig config c, None) \/
  exists cfg,
    setConfig_strict config i c
      = ({| _config := cfg; _hass := _hass c; innerHTML := innerHTML c |},
         Some TypeError) /\
    i <> Extensible /\
    config <> None /\
    (truthy (own_or_undefined cfg "entity") = false \/
     truthy (own_or_undefined cfg "title") = false) /\
    (forall k : string,
        k <> "entity" ->
        own_prop cfg k
        = own_prop match config with Some o => o | None => [] end k).
Proof.
  destruct i; [left; apply setConfig_strict_extensible | |];
    (destruct config as [o |]; [| left; reflexivity]);
    assert (Hne : "title" <> "entity") by discriminate;
    unfold setConfig_strict, setConfig, assign, set_prop, own_or_undefined;
    cbv zeta;
    destruct (own_prop o "entity") as [e |] eqn:He;
    try destruct (truthy e) eqn:Hte; cbn [negb]; cbv iota beta;
    rewrite ?(own_prop_other _ _ _ _ Hne);
    destruct (own_prop o "title") as [t |] eqn:Ht;
    try destruct (truthy t) eqn:Htt; cbn [negb]; cbv iota beta;
    try (left; reflexivity);
    right; eexists; (split; [reflexivity |]);
    (split; [discriminate |]); (split; [discriminate |]);
    unfold own_or_undefined;
    rewrite ?(own_prop_other _ _ _ _ Hne), ?He, ?Ht;
    (split; [first [left; assumption | right; assumption
                   | left; reflexivity | right; reflexivity] |]);
    intros k Hk; rewrite ?own_prop_other by assumption; reflexivity.
Qed.

(** X16. [setConfig] stores the configuration and touches neither the
    [hass] nor the markup. On an extensible configuration, and without
    one, it always completes. Whenever it completes, the stored
    configuration has a truthy [entity] and a truthy [title], a truthy one
    that was passed is kept and every other property reads as before.
    Otherwise an assignment was refused: a [TypeError] leaves the method,
    the configuration is not extensible, and it is stored still lacking a
    truthy [entity] or a truthy [title]. On a frozen configuration the
    call completes exactly when both were passed truthy. *)
Theorem setConfig_completes (config : option JsObject) (i : Integrity)
  (c : Card) :
  let passed := match config with Some o => o | None => [] end in
  let after := fst (setConfig_strict config i c) in
  _hass after = _hass c /\
  innerHTML after = innerHTML c /\
  setConfig_strict config Extensible c = (setConfig config c, None) /\
  setConfig_strict None i c = (setConfig None c, None) /\
  match snd (setConfig_strict config i c) with
  | None =>
      after = setConfig config c /\
      truthy (own_or_undefined (_config after) "entity") = true /\
      truthy (own_or_undefined (_config after) "title") = true /\
      (truthy (own_or_undefined passed "entity") = true ->
       own_or_undefined (_config after) "entity"
       = own_or_undefined passed "entity") /\
      (truthy (own_or_undefined passed "title") = true ->
       own_or_undefined (_config after) "title"
       = own_or_undefined passed "title") /\
      (forall k : string,
          k <> "entity" -> k <> "title" ->
          own_prop (_config after) k = own_prop passed k)
  | Some e =>
      e = TypeError /\
      i <> Extensible /\
      config <> None /\
      (truthy (own_or_undefined (_config after) "entity") = false \/
       truthy (own_or_undefined (_config after) "title") = false) /\
      (forall k : string,
          k <> "entity" -> own_prop (_config after) k = own_prop passed k)
  end /\
  (snd (setConfig_strict config Frozen c) = None <->
   config = None \/
   (truthy (own_or_undefined passed "entity") = true /\
    truthy (own_or_undefined passed "title") = true)).
Proof.
  intros passed after. subst after.
  split; [| split; [| split; [apply setConfig_strict_extensible |
                              split; [reflexivity | split]]]].
  - destruct (setConfig_strict_cases config i c) as [-> | (cfg & -> & _)];
      reflexivity.
  - destruct (setConfig_strict_cases config i c) as [-> | (cfg & -> & _)];
      reflexivity.
  - destruct (setConfig_strict_cases config i c)
      as [-> | (cfg & -> & Hi & Hc & Hlack & Hkeys)]; simpl.
    + split; [reflexivity |]. exact (setConfig_assigned config c).
    + repeat split; assumption.
  - destruct config as [o |]; [| split; [left; reflexivity | reflexivity]].
    subst passed.
    unfold setConfig_strict, assign, own_or_undefined. cbv zeta.
    destruct (own_prop o "entity") as [e |] eqn:He;
      try destruct (truthy e) eqn:Hte; cbn [negb]; cbv iota beta;
      destruct (own_prop o "title") as [t |] eqn:Ht;
      try destruct (truthy t) eqn:Htt; cbn [negb]; cbv iota beta;
      simpl; split;
      try discriminate; try reflexivity;
      try (intros _; right; split; reflexivity);
      intros [Habs | [H1 H2]]; discriminate.
Qed.

Lemma setConfig_filled (config : option JsObject) (c : Card) :
  truthy (own_or_undefined (_config (setConfig config c)) "entity") = true /\
  truthy (own_or_undefined (_config (setConfig config c)) "title") = true.
Proof.
  unfold setConfig, set_prop. cbn [_config].
  set (passed := match config with Some o => o | None => [] end).
  assert (Hne : "title" <> "entity") by discriminate.
  assert (Hne' : "entity" <> "title") by discriminate.
  unfold own_or_undefined.
  destruct (truthy match own_prop passed "entity" with
                   | Some v => v
                   | None => VUndefined
                   end) eqn:Hte; cbn [negb];
    rewrite ?(own_prop_other _ _ _ _ Hne);
    destruct (truthy match own_prop passed "title" with
                     | Some v => v
                     | None => VUndefined
                     end) eqn:Htt; cbn [negb];
    rewrite ?own_prop_same, ?(own_prop_other _ _ _ _ Hne),
            ?(own_prop_other _ _ _ _ Hne'), ?own_prop_same, ?Hte, ?Htt;
    split; reflexivity.
Qed.

(** X14. [setConfig] is idempotent: passing the completed configuration
    again changes nothing. *)
Theorem setConfig_idempotent (config : option JsObject) (c : Card) :
  setConfig (Some (_config (setConfig config c))) (setConfig config c)
  = setConfig config c.
Proof.
  destruct (setConfig_filled config c) as [Hentity Htitle].
  remember (setConfig config c) as c1 eqn:Hc1.
  unfold setConfig at 1. cbv zeta.
  rewrite Hentity. simpl negb. cbv iota.
  rewrite Htitle. simpl negb. cbv iota.
  destruct c1; reflexivity.
Qed.

(** ** Loading the module *)


(** A load throws exactly when the registry already holds the name. *)
Lemma load_module_throws (w : Window) :
  load_module w = inl NotSupportedError <->
  existsb (String.eqb "einsatz-monitor-card") (customElements w) = true.
Proof.
  unfold load_module, define.
  destruct (existsb _ (customElements w)); split;
    try reflexivity; discriminate.
Qed.
(* ===================================================================== *)
(** * The theorems at sample inputs *)
(* ===================================================================== *)

(** A card for [sensor.x] while the states hold only [sensor.y]. *)
Lemma entity_not_found_witness :
  render_view stub_engine
    (card_with {| states := [ ("sensor.y", state_with (VArr [fire_incident])) ] |})
  = Normal (Some (ErrorView "Wache" "sensor.x")) /\
  _render stub_engine
    (card_with {| states := [ ("sensor.y", state_with (VArr [fire_incident])) ] |})
  = Normal {| _config := sample_config;
              _hass := Some {| states :=
                [ ("sensor.y", state_with (VArr [fire_incident])) ] |};
              innerHTML := error_markup "Wache" "sensor.x" |}.
Proof.
  apply (entity_not_found_error_view stub_engine
           (card_with {| states :=
              [ ("sensor.y", state_with (VArr [fire_incident])) ] |})
           {| states := [ ("sensor.y", state_with (VArr [fire_incident])) ] |}
           "Wache" "sensor.x");
    reflexivity.
Defined.

(** A state object whose attributes hold no [einsaetze]. *)
Lemma missing_incidents_witness :
  render_view stub_engine
    (card_with (hass_with (VObj [ ("state", VStr "0"); ("attributes", VObj []) ])))
  = Normal (Some (EmptyView "Wache")) /\
  _render stub_engine
    (card_with (hass_with (VObj [ ("state", VStr "0"); ("attributes", VObj []) ])))
  = Normal {| _config := sample_config;
              _hass := Some (hass_with
                (VObj [ ("state", VStr "0"); ("attributes", VObj []) ]));
              innerHTML := card_markup "Wache" empty_content |}.
Proof.
  apply (missing_incidents_empty_view stub_engine
           (card_with (hass_with
              (VObj [ ("state", VStr "0"); ("attributes", VObj []) ])))
           (hass_with (VObj [ ("state", VStr "0"); ("attributes", VObj []) ]))
           "sensor.x" "Wache"
           (VObj [ ("state", VStr "0"); ("attributes", VObj []) ])
           (VObj []) VUndefined);
    reflexivity.
Defined.

(** Two incidents give two rows, in the order of the incidents. *)
Lemma found_list_view_witness :
  exists rows,
    render_view stub_engine
      (card_with (hass_with (state_with (VArr [fire_incident; blank_incident]))))
    = Normal (Some (ListView "Wache" rows)) /\
    List.length rows = 2%nat /\
    Forall2 (fun einsatz r => render_row stub_engine einsatz = Normal r)
            [fire_incident; blank_incident] rows.
Proof.
  apply (found_empty_or_list_view stub_engine
           (card_with (hass_with
              (state_with (VArr [fire_incident; blank_incident]))))
           (hass_with (state_with (VArr [fire_incident; blank_incident])))
           "sensor.x" "Wache"
           (state_with (VArr [fire_incident; blank_incident]))
           (VObj [ ("einsaetze", VArr [fire_incident; blank_incident]) ])
           [fire_incident; blank_incident]);
    reflexivity.
Defined.

Lemma render_well_formed_witness :
  exists view,
    render_view stub_engine
      (card_with (hass_with (state_with (VArr [fire_incident; blank_incident]))))
    = Normal (Some view) /\
    _render stub_engine
      (card_with (hass_with (state_with (VArr [fire_incident; blank_incident]))))
    = Normal {| _config := sample_config;
                _hass := Some (hass_with
                  (state_with (VArr [fire_incident; blank_incident])));
                innerHTML := innerHTML_of view |} /\
    ((exists t e, view = ErrorView t e) \/
     (exists t, view = EmptyView t) \/
     (exists t rows, view = ListView t rows)).
Proof.
  apply (render_well_formed stub_engine
           (card_with (hass_with
              (state_with (VArr [fire_incident; blank_incident]))))).
  reflexivity.
Defined.

(** An incident with a type and a unit and nothing else. *)
Lemma row_assembly_witness :
  exists r,
    render_row stub_engine
      (VObj [ ("type", VStr "fire"); ("unit", VStr "Wache1") ]) = Normal r /\
    row_keyword r = "Unbekannt" /\
    row_vehicles r = "Keine Fahrzeuge" /\
    row_unit r = Some "Wache1".
Proof.
  destruct (row_assembly stub_engine
              (VObj [ ("type", VStr "fire"); ("unit", VStr "Wache1") ])
              eq_refl)
    as (r & Hrow & _ & _ & Hkeyword & Hvehicles & _ & Hunit & _).
  exists r. split; [exact Hrow |].
  split; [exact (Hkeyword eq_refl) |].
  split; [exact (Hvehicles eq_refl) |].
  apply (Hunit "Wache1" "Wache1" eq_refl).
  split; [reflexivity | discriminate].
Defined.

(** C6 fails as stated: a [unit] that is the number 7 is no string, and
    the row has a unit line for it. *)
Lemma unit_line_for_a_number :
  exists r,
    render_row stub_engine markup_incident = Normal r /\
    field markup_incident f_unit = VNum 7 /\
    row_unit r = Some "7" /\
    ~ (row_unit r = Some "7" <->
       field markup_incident f_unit = VStr "7" /\ "7" <> EmptyString).
Proof.
  eexists. split; [reflexivity |]. split; [reflexivity |].
  split; [reflexivity |].
  intros [Hunit _]. destruct (Hunit eq_refl) as [Habs _]. discriminate Habs.
Qed.

Lemma falsy_fields_witness :
  exists r,
    render_row stub_engine blank_incident = Normal r /\
    row_keyword r = "Unbekannt" /\
    row_vehicles r = "Keine Fahrzeuge" /\
    row_timeStr r = EmptyString.
Proof.
  destruct (falsy_fields_fall_back stub_engine blank_incident eq_refl)
    as (r & Hrow & Hkeyword & Hvehicles & Htime & _).
  exists r. split; [exact Hrow |].
  split; [exact (Hkeyword eq_refl) |].
  split; [exact (Hvehicles eq_refl) | exact (Htime eq_refl)].
Defined.

Lemma not_a_date_witness :
  _formatTime stub_engine (VStr "not-a-date") = Normal "Invalid Date" /\
  _formatTime stub_engine (VStr "not-a-date")
    <> ToString stub_engine (VStr "not-a-date").
Proof.
  apply (not_a_date_shown_as_Invalid_Date stub_engine). reflexivity.
Defined.

(** C1 fails as stated: with a number for [einsaetze], and with [null]
    among the incidents, the exception leaves [_render] and the setter. *)
Lemma render_throws_on_malformed_incidents :
  set_hass stub_engine (Some (hass_with (state_with (VNum 5))))
    (setConfig (Some sample_config) new_card) = Throw TypeError /\
  set_hass stub_engine
    (Some (hass_with (state_with (VArr [fire_incident; VNull]))))
    (setConfig (Some sample_config) new_card) = Throw TypeError.
Proof.
  split; reflexivity.
Qed.

(** ** The scenarios of the card's description *)

(** One fire incident with every field set. *)
Example scenario_fire :
  render_view stub_engine (card_with (hass_with (state_with (VArr [fire_incident]))))
  = Normal (Some (ListView "Wache"
      [ {| row_typeInfo := Theme {| icon := "mdi:fire";
                                    color := "#ef4444";
                                    bgColor := "rgba(239, 68, 68, 0.15)" |};
           row_keyword := "B2";
           row_unit := Some "Wache1";
           row_vehicles := "HLF20, TLF";
           row_timeStr := "14.11.2023, 23:13" |} ])).
Proof. reflexivity. Qed.

(** No state for the configured entity. *)
Example scenario_not_found :
  render_view stub_engine (card_with {| states := [] |})
  = Normal (Some (ErrorView "Wache" "sensor.x")).
Proof. reflexivity. Qed.

(** An empty list of incidents. *)
Example scenario_empty :
  render_view stub_engine (card_with (hass_with (state_with (VArr []))))
  = Normal (Some (EmptyView "Wache")).
Proof. reflexivity. Qed.

(** Before the first [hass] arrives nothing is rendered. *)
Example scenario_no_hass :
  _render stub_engine (setConfig None new_card)
  = Normal (setConfig None new_card).
Proof. reflexivity. Qed.

(** A configured entity named like a member of [Object.prototype] is
    found on the prototype of [states], and reading its attributes
    throws. *)
Example scenario_inherited_entity :
  _render stub_engine
    {| _config := [ ("entity", VStr "toString") ];
       _hass := Some {| states := [] |};
       innerHTML := EmptyString |}
  = Throw TypeError.
Proof. reflexivity. Qed.

(** ** The further properties at sample inputs *)

Lemma set_fields_shown_witness :
  exists r,
    render_row stub_engine markup_incident = Normal r /\
    row_keyword r = "<b>B3</b>" /\
    row_vehicles r = "HLF20 & DLK" /\
    row_unit r = Some "7".
Proof.
  destruct (set_fields_shown stub_engine markup_incident eq_refl)
    as (r & Hrow & Hkeyword & Hvehicles & Hunit).
  exists r. split; [exact Hrow |].
  split; [apply Hkeyword; [reflexivity | discriminate] |].
  split; [apply Hvehicles; [reflexivity | discriminate] |].
  apply Hunit. split; reflexivity.
Defined.

Lemma one_bad_incident_witness :
  render_view stub_engine
    (card_with (hass_with (state_with (VArr [fire_incident; VNull]))))
  = Throw TypeError /\
  _render stub_engine
    (card_with (hass_with (state_with (VArr [fire_incident; VNull]))))
  = Throw TypeError.
Proof.
  apply (one_bad_incident_throws stub_engine
           (card_with (hass_with (state_with (VArr [fire_incident; VNull]))))
           (hass_with (state_with (VArr [fire_incident; VNull])))
           "sensor.x"
           (state_with (VArr [fire_incident; VNull]))
           (VObj [ ("einsaetze", VArr [fire_incident; VNull]) ])
           [fire_incident; VNull] VNull);
    try reflexivity.
  right. left. reflexivity.
Defined.

Lemma error_view_witness :
  exists hass,
    _hass (card_with {| states := [] |}) = Some hass /\
    ToString stub_engine (title (card_with {| states := [] |}))
      = Normal "Wache" /\
    ToString stub_engine (entityId (card_with {| states := [] |}))
      = Normal "sensor.x" /\
    found (lookup (states hass) "sensor.x") = false.
Proof.
  apply (error_view_only_when_not_found stub_engine
           (card_with {| states := [] |}) "Wache" "sensor.x").
  reflexivity.
Defined.

Lemma list_view_witness :
  exists hass key stateObj attributes items,
    _hass (card_with (hass_with (state_with (VArr [fire_incident]))))
      = Some hass /\
    ToString stub_engine
      (entityId (card_with (hass_with (state_with (VArr [fire_incident])))))
      = Normal key /\
    lookup (states hass) key = Own stateObj /\
    truthy stateObj = true /\
    Get stateObj f_attributes = Normal attributes /\
    Get attributes f_einsaetze = Normal (VArr items) /\
    items <> [] /\
    [fire_row] <> [] /\
    Forall2 (fun einsatz r => render_row stub_engine einsatz = Normal r)
            items [fire_row].
Proof.
  apply (list_view_only_for_nonempty_array stub_engine
           (card_with (hass_with (state_with (VArr [fire_incident]))))
           "Wache" [fire_row]).
  reflexivity.
Defined.

Lemma empty_view_witness :
  exists hass key stateObj attributes ei,
    _hass (card_with (hass_with (state_with (VObj [ ("length", VNum 0) ]))))
      = Some hass /\
    ToString stub_engine
      (entityId
         (card_with (hass_with (state_with (VObj [ ("length", VNum 0) ])))))
      = Normal key /\
    lookup (states hass) key = Own stateObj /\
    truthy stateObj = true /\
    Get stateObj f_attributes = Normal attributes /\
    Get attributes f_einsaetze = Normal ei /\
    (truthy ei = false \/
     ei = VArr [] \/
     exists props n,
       ei = VObj props /\
       own_prop props "length" = Some (VNum n) /\
       PrimFloat.eqb n 0 = true).
Proof.
  apply (empty_view_causes stub_engine
           (card_with (hass_with (state_with (VObj [ ("length", VNum 0) ]))))
           "Wache").
  reflexivity.
Defined.

Lemma inherited_entity_witness :
  render_view stub_engine toString_card = Throw TypeError /\
  _render stub_engine toString_card = Throw TypeError.
Proof.
  apply (inherited_entity_throws stub_engine toString_card
           {| states := [ ("sensor.x", state_with (VArr [])) ] |}
           "toString");
    reflexivity.
Defined.

Lemma missing_attributes_witness :
  render_view stub_engine (card_with (hass_with bare_state))
  = Throw TypeError /\
  _render stub_engine (card_with (hass_with bare_state)) = Throw TypeError.
Proof.
  apply (missing_attributes_throws stub_engine
           (card_with (hass_with bare_state)) (hass_with bare_state)
           "sensor.x" bare_state);
    reflexivity.
Defined.

Lemma non_array_incidents_witness :
  render_view stub_engine (card_with (hass_with (state_with (VStr "none"))))
  = Throw TypeError.
Proof.
  apply (non_array_incidents stub_engine
           (card_with (hass_with (state_with (VStr "none"))))
           (hass_with (state_with (VStr "none")))
           "sensor.x" "Wache"
           (state_with (VStr "none"))
           (VObj [ ("einsaetze", VStr "none") ])
           (VStr "none"));
    first [reflexivity | exact I].
Defined.

Lemma incident_text_unescaped_witness :
  exists c',
    _render stub_engine
      (card_with (hass_with (state_with (VArr [fire_incident; markup_incident]))))
    = Normal c' /\
    contains (innerHTML c') "<b>B3</b>".
Proof.
  apply (incident_text_unescaped stub_engine
           (card_with (hass_with
              (state_with (VArr [fire_incident; markup_incident]))))
           (hass_with (state_with (VArr [fire_incident; markup_incident])))
           "sensor.x" "Wache"
           (state_with (VArr [fire_incident; markup_incident]))
           (VObj [ ("einsaetze", VArr [fire_incident; markup_incident]) ])
           [fire_incident; markup_incident] markup_incident f_keyword
           "<b>B3</b>");
    try reflexivity.
  - right. left. reflexivity.
  - left. reflexivity.
  - discriminate.
Defined.

(** An update that renders a list, then one that throws: the card holds
    the second [hass] and still shows the list. Then one that renders:
    nothing of either remains. *)
Example updates_in_a_row :
  let listed := fst (set_hass_state stub_engine
                       (Some (hass_with (state_with (VArr [fire_incident]))))
                       (card_with {| states := [] |})) in
  let thrown := set_hass_state stub_engine
                  (Some (hass_with (state_with (VNum 5)))) listed in
  innerHTML listed = innerHTML_of (ListView "Wache" [fire_row]) /\
  thrown = ({| _config := sample_config;
               _hass := Some (hass_with (state_with (VNum 5)));
               innerHTML := innerHTML_of (ListView "Wache" [fire_row]) |},
            Some TypeError) /\
  set_hass_state stub_engine (Some (hass_with (state_with (VArr []))))
    (fst thrown)
  = ({| _config := sample_config;
        _hass := Some (hass_with (state_with (VArr [])));
        innerHTML := innerHTML_of (EmptyView "Wache") |},
     None).
Proof.
  repeat split.
Qed.

Lemma only_the_incidents_matter_witness :
  render_view stub_engine
    (card_with (hass_with (state_with (VArr [fire_incident]))))
  = render_view stub_engine
      (card_with
         {| states :=
              [ ("sensor.y", bare_state);
                ("sensor.x",
                 VObj [ ("state", VStr "5");
                        ("attributes",
                         VObj [ ("friendly_name", VStr "Einsatzliste");
                                ("einsaetze", VArr [fire_incident]) ]) ]) ] |}).
Proof.
  apply (only_the_incidents_matter stub_engine _ _
           (hass_with (state_with (VArr [fire_incident])))
           {| states :=
              [ ("sensor.y", bare_state);
                ("sensor.x",
                 VObj [ ("state", VStr "5");
                        ("attributes",
                         VObj [ ("friendly_name", VStr "Einsatzliste");
                                ("einsaetze", VArr [fire_incident]) ]) ]) ] |}
           "sensor.x"
           (state_with (VArr [fire_incident]))
           (VObj [ ("state", VStr "5");
                   ("attributes",
                    VObj [ ("friendly_name", VStr "Einsatzliste");
                           ("einsaetze", VArr [fire_incident]) ]) ])
           (VObj [ ("einsaetze", VArr [fire_incident]) ])
           (VObj [ ("friendly_name", VStr "Einsatzliste");
                   ("einsaetze", VArr [fire_incident]) ])
           (VArr [fire_incident]));
    reflexivity.
Defined.


(** A frozen configuration without a title: the assignment of the
    default throws, and the configuration stays stored without it. An
    extensible one gets the default. *)
Example frozen_configuration :
  setConfig_strict (Some [ ("entity", VStr "sensor.x") ]) Frozen new_card
  = ({| _config := [ ("entity", VStr "sensor.x") ];
        _hass := None;
        innerHTML := EmptyString |},
     Some TypeError) /\
  setConfig_strict (Some [ ("entity", VStr "sensor.x") ]) Extensible new_card
  = ({| _config := [ ("title", VStr "Letzte Einsätze");
                     ("entity", VStr "sensor.x") ];
        _hass := None;
        innerHTML := EmptyString |},
     None) /\
  setConfig_strict (Some sample_config) Frozen new_card
  = ({| _config := sample_config; _hass := None; innerHTML := EmptyString |},
     None).
Proof.
  repeat split.
Qed.
